(** * Template binary sensor: a shallow embedding

    Source: [homeassistant/components/template/binary_sensor.py].

    The sensor renders user templates against the state of the host,
    derives a boolean from the value template, refreshes attributes, icon,
    entity picture and availability, and commits the boolean either at
    once or after a delay.

    Templates are external: one rendering is a call into the template
    engine, modelled by an environment [render_env] that says, for the
    state of the host at that moment, what [template.async_render()]
    returns or raises.  Every call into the engine, every log record and
    every state write handed to the host is recorded in a trace, oldest
    first, so that statements about "what was attempted" can be made. *)

From stdpp Require Import gmap strings list fin_maps.
From Stdlib Require Import ZArith Ascii String.

Local Open Scope string_scope.
Local Open Scope Z_scope.

(** ** Python string primitives used by the component *)

Module Py.

(** [str.lower()], on the ASCII range.  No character outside that range
    lowers to one of [t], [r], [u], [e], so the comparison with the
    literal ["true"] made by the component is not affected. *)
Definition lower_ascii (c : ascii) : ascii :=
  let n := nat_of_ascii c in
  if ((65 <=? n) && (n <=? 90))%nat then ascii_of_nat (n + 32) else c.

Fixpoint lower (s : string) : string :=
  match s with
  | EmptyString => EmptyString
  | String c rest => String (lower_ascii c) (lower rest)
  end.

(** [s.startswith(p)] *)
Definition startswith (s p : string) : bool := String.prefix p s.

(** [s[1:]] *)
Definition tail (s : string) : string :=
  match s with
  | EmptyString => EmptyString
  | String _ rest => rest
  end.

(** [s.replace(old, new)] for a non-empty [old]: occurrences are replaced
    from the left and do not overlap.  [skip] counts the characters of a
    matched occurrence that are still to be dropped. *)
Fixpoint replace_from (skip : nat) (old new s : string) : string :=
  match s with
  | EmptyString => EmptyString
  | String c rest =>
      match skip with
      | S k => replace_from k old new rest
      | O =>
          if String.prefix old s
          then new ++ replace_from (String.length old - 1) old new rest
          else String c (replace_from O old new rest)
      end
  end.

Definition replace (s old new : string) : string := replace_from O old new s.

(** [sep.join(l)] *)
Fixpoint join (sep : string) (l : list string) : string :=
  match l with
  | [] => EmptyString
  | [x] => x
  | x :: rest => x ++ sep ++ join sep rest
  end.

End Py.

(** ** Data model *)

(** A template object; the engine that renders it is external. *)
Inductive Template := MkTemplate (source : string).

(** [homeassistant.exceptions.TemplateError], with the [args] of the
    exception. *)
Inductive TemplateError := MkTemplateError (args : list string).

Definition ex_args (ex : TemplateError) : list string :=
  match ex with MkTemplateError a => a end.

(** The result of one [template.async_render()]: the rendered text, or the
    [TemplateError] raised. *)
Definition render_result : Type := string + TemplateError.

(** The template engine against the state of the host at one moment. *)
Definition render_env : Type := Template -> render_result.

(** The entities a sensor tracks: the sentinel [MATCH_ALL], or a list of
    entity ids. *)
Inductive EntityIds :=
| MATCH_ALL
| Ids (ids : list string).

(** A [timedelta]; [None] when the option is not configured. *)
Definition timedelta : Type := Z.

(** Truth value of an optional [timedelta]: [None] and the zero duration
    are false. *)
Definition truthy (d : option timedelta) : bool :=
  match d with
  | None => false
  | Some p => negb (p =? 0)
  end.

(** The fields set by [BinarySensorTemplate.__init__] ([hass] is the
    world the sensor lives in, see [Hass] below). *)
Record BinarySensorTemplate := mkSensor {
  entity_id : string;
  _name : string;
  _device_class : option string;
  _template : Template;
  _state : option bool;
  _icon_template : option Template;
  _availability_template : option Template;
  _entity_picture_template : option Template;
  _icon : option string;
  _entity_picture : option string;
  _entities : EntityIds;
  _delay_on : option timedelta;
  _delay_off : option timedelta;
  _available : bool;
  _attribute_templates : option (list (string * Template));
  _attributes : gmap string string
}.

(** [BinarySensorTemplate.__init__].  The entity id comes from the host's
    [async_generate_entity_id] and is taken as given. *)
Definition __init__ (generated_entity_id friendly_name : string)
    (device_class : option string)
    (value_template : Template)
    (icon_template entity_picture_template availability_template : option Template)
    (entity_ids : EntityIds) (delay_on delay_off : option timedelta)
    (attribute_templates : option (list (string * Template)))
  : BinarySensorTemplate :=
  {| entity_id := generated_entity_id;
     _name := friendly_name;
     _device_class := device_class;
     _template := value_template;
     _state := None;
     _icon_template := icon_template;
     _availability_template := availability_template;
     _entity_picture_template := entity_picture_template;
     _icon := None;
     _entity_picture := None;
     _entities := entity_ids;
     _delay_on := delay_on;
     _delay_off := delay_off;
     _available := true;
     _attribute_templates := attribute_templates;
     _attributes := ∅ |}.

(** Field writes. *)
Definition set__state (v : option bool) (s : BinarySensorTemplate) :=
  mkSensor (entity_id s) (_name s) (_device_class s) (_template s) v
    (_icon_template s) (_availability_template s) (_entity_picture_template s)
    (_icon s) (_entity_picture s) (_entities s) (_delay_on s) (_delay_off s)
    (_available s) (_attribute_templates s) (_attributes s).

Definition set__icon (v : option string) (s : BinarySensorTemplate) :=
  mkSensor (entity_id s) (_name s) (_device_class s) (_template s) (_state s)
    (_icon_template s) (_availability_template s) (_entity_picture_template s)
    v (_entity_picture s) (_entities s) (_delay_on s) (_delay_off s)
    (_available s) (_attribute_templates s) (_attributes s).

Definition set__entity_picture (v : option string) (s : BinarySensorTemplate) :=
  mkSensor (entity_id s) (_name s) (_device_class s) (_template s) (_state s)
    (_icon_template s) (_availability_template s) (_entity_picture_template s)
    (_icon s) v (_entities s) (_delay_on s) (_delay_off s)
    (_available s) (_attribute_templates s) (_attributes s).

Definition set__available (v : bool) (s : BinarySensorTemplate) :=
  mkSensor (entity_id s) (_name s) (_device_class s) (_template s) (_state s)
    (_icon_template s) (_availability_template s) (_entity_picture_template s)
    (_icon s) (_entity_picture s) (_entities s) (_delay_on s) (_delay_off s)
    v (_attribute_templates s) (_attributes s).

Definition set__attributes (v : gmap string string) (s : BinarySensorTemplate) :=
  mkSensor (entity_id s) (_name s) (_device_class s) (_template s) (_state s)
    (_icon_template s) (_availability_template s) (_entity_picture_template s)
    (_icon s) (_entity_picture s) (_entities s) (_delay_on s) (_delay_off s)
    (_available s) (_attribute_templates s) v.

(** ** The world of the sensor *)

(** An argument of a log call: a string, or an exception printed with
    [%s]. *)
Inductive log_arg :=
| ArgStr (s : string)
| ArgExc (ex : TemplateError).

(** What the host shows of the sensor after a state write: the properties
    [is_on], [device_state_attributes], [icon], [entity_picture] and
    [available]. *)
Record Snapshot := mkSnapshot {
  snap_is_on : option bool;
  snap_attributes : gmap string string;
  snap_icon : option string;
  snap_entity_picture : option string;
  snap_available : bool
}.

(** The properties of the class, read from the fields. *)
Definition is_on (self : BinarySensorTemplate) : option bool := _state self.
Definition device_state_attributes (self : BinarySensorTemplate) := _attributes self.
Definition icon (self : BinarySensorTemplate) := _icon self.
Definition entity_picture (self : BinarySensorTemplate) := _entity_picture self.
Definition available (self : BinarySensorTemplate) := _available self.
Definition should_poll (self : BinarySensorTemplate) : bool := false.

Definition snapshot_of (self : BinarySensorTemplate) : Snapshot :=
  mkSnapshot (is_on self) (device_state_attributes self) (icon self)
    (entity_picture self) (available self).

(** The observable effects of the component, in the order they happen:
    calls of [template.extract_entities()] and [template.async_render()],
    log records, and state writes handed to the host. *)
Inductive effect :=
| Extracted (t : Template)
| Rendered (t : Template)
| LogWarning (fmt : string) (args : list log_arg)
| LogError (fmt : string) (args : list log_arg)
| Published (snap : Snapshot).

(** A delayed commit held by the host for [async_track_same_state]: the
    [period] asked for, the moment it is due, the entities passed along, and
    the value captured by the two closures [set_state] and
    [async_check_same_func]. *)
Record Timer := mkTimer {
  timer_period : timedelta;
  timer_deadline : Z;
  timer_entity_ids : EntityIds;
  timer_target : bool
}.

(** The host together with the sensor it holds. *)
Record Hass := mkHass {
  sensor : BinarySensorTemplate;
  trace : list effect;
  timers : list Timer;
  now : Z;
  state_listeners : list (list string);
  startup_listeners : nat
}.

Definition with_sensor (f : BinarySensorTemplate -> BinarySensorTemplate) (w : Hass) : Hass :=
  mkHass (f (sensor w)) (trace w) (timers w) (now w) (state_listeners w)
    (startup_listeners w).

Definition with_effect (e : effect) (w : Hass) : Hass :=
  mkHass (sensor w) (app (trace w) [e]) (timers w) (now w) (state_listeners w)
    (startup_listeners w).

Definition with_timers (f : list Timer -> list Timer) (w : Hass) : Hass :=
  mkHass (sensor w) (trace w) (f (timers w)) (now w) (state_listeners w)
    (startup_listeners w).

Definition with_now (t : Z) (w : Hass) : Hass :=
  mkHass (sensor w) (trace w) (timers w) t (state_listeners w)
    (startup_listeners w).

Definition with_state_listeners (f : list (list string) -> list (list string))
    (w : Hass) : Hass :=
  mkHass (sensor w) (trace w) (timers w) (now w) (f (state_listeners w))
    (startup_listeners w).

Definition with_startup_listeners (n : nat) (w : Hass) : Hass :=
  mkHass (sensor w) (trace w) (timers w) (now w) (state_listeners w) n.

(** ** A state monad over the world *)

Definition M (A : Type) : Type := Hass -> A * Hass.

Definition ret {A} (a : A) : M A := fun w => (a, w).

Definition bind {A B} (m : M A) (k : A -> M B) : M B :=
  fun w => k (m w).1 (m w).2.

Declare Scope sensor_scope.
Delimit Scope sensor_scope with sensor.
Notation "x <- m ;; k" := (bind m (fun x => k))
  (at level 100, m at next level, right associativity) : sensor_scope.
Notation "m ;; k" := (bind m (fun _ => k))
  (at level 100, right associativity) : sensor_scope.
Local Open Scope sensor_scope.

Definition get_self : M BinarySensorTemplate := fun w => (sensor w, w).
Definition modify_self (f : BinarySensorTemplate -> BinarySensorTemplate) : M unit :=
  fun w => (tt, with_sensor f w).
Definition emit (e : effect) : M unit := fun w => (tt, with_effect e w).

(** [template.async_render()]: one call into the engine. *)
Definition async_render (env : render_env) (t : Template) : M render_result :=
  emit (Rendered t) ;; ret (env t).

(** [_LOGGER.warning] and [_LOGGER.error] *)
Definition _LOGGER_warning (fmt : string) (args : list log_arg) : M unit :=
  emit (LogWarning fmt args).
Definition _LOGGER_error (fmt : string) (args : list log_arg) : M unit :=
  emit (LogError fmt args).

(** ** [_async_render] *)

(** [ex.args and ex.args[0].startswith("UndefinedError: 'None' has no attribute")] *)
Definition is_undefined_error (ex : TemplateError) : bool :=
  match ex_args ex with
  | [] => false
  | a0 :: _ => Py.startswith a0 "UndefinedError: 'None' has no attribute"
  end.

(** [value.lower() == "true"] *)
Definition is_true_text (value : string) : bool :=
  String.eqb (Py.lower value) "true".

(** The loop over [self._attribute_templates.items()] (lines 258-262):
    every entry is rendered; a success is stored under its key, a failure
    is logged and the loop goes on. *)
Fixpoint render_attributes (env : render_env) (items : list (string * Template))
    (attrs : gmap string string) : M (gmap string string) :=
  match items with
  | [] => ret attrs
  | (key, value) :: rest =>
      r <- async_render env value ;;
      match r with
      | inl v => render_attributes env rest (<[key := v]> attrs)
      | inr err =>
          _LOGGER_error "Error rendering attribute %s: %s" [ArgStr key; ArgExc err] ;;
          render_attributes env rest attrs
      end
  end.

(** A value given to [setattr]: the rendered text, or the boolean derived
    from it for [_available]. *)
Inductive attr_value :=
| VStr (s : string)
| VBool (b : bool).

(** [setattr(self, property_name, value)] for the three names of the
    loop. *)
Definition setattr (property_name : string) (value : attr_value)
    (self : BinarySensorTemplate) : BinarySensorTemplate :=
  match value with
  | VStr s =>
      if String.eqb property_name "_icon" then set__icon (Some s) self
      else if String.eqb property_name "_entity_picture" then set__entity_picture (Some s) self
      else self
  | VBool b =>
      if String.eqb property_name "_available" then set__available b self
      else self
  end.

(** The loop over [templates.items()] (lines 271-298).  An entry without a
    template is skipped; a success is assigned; the first failure is logged
    and returns [state] from the whole function. *)
Fixpoint render_properties (env : render_env)
    (templates : list (string * option Template)) (state : option bool)
  : M (option bool) :=
  match templates with
  | [] => ret state
  | (property_name, None) :: rest => render_properties env rest state
  | (property_name, Some template) :: rest =>
      r <- async_render env template ;;
      match r with
      | inl value =>
          let value :=
            if String.eqb property_name "_available"
            then VBool (is_true_text value) else VStr value in
          modify_self (setattr property_name value) ;;
          render_properties env rest state
      | inr ex =>
          self <- get_self ;;
          let friendly_property_name :=
            Py.replace (Py.tail property_name) "_" " " in
          (if is_undefined_error ex
           then _LOGGER_warning "Could not render %s template %s, the state is unknown."
                  [ArgStr friendly_property_name; ArgStr (_name self)]
           else _LOGGER_error "Could not render %s template %s: %s"
                  [ArgStr friendly_property_name; ArgStr (_name self); ArgExc ex]) ;;
          ret state
      end
  end.

(** Lines 256-300: what follows the rendering of the value template. *)
Definition render_rest (env : render_env) (state : option bool) : M (option bool) :=
  self <- get_self ;;
  match _attribute_templates self with
   | Some items =>
       attrs <- render_attributes env items ∅ ;;
       modify_self (set__attributes attrs)
   | None => ret tt
   end ;;
  self <- get_self ;;
  let templates :=
    [("_icon", _icon_template self);
     ("_entity_picture", _entity_picture_template self);
     ("_available", _availability_template self)] in
  render_properties env templates state.

(** [BinarySensorTemplate._async_render]: the candidate state, [None] when
    it is unknown. *)
Definition _async_render (env : render_env) : M (option bool) :=
  self <- get_self ;;
  r <- async_render env (_template self) ;;
  match r with
  | inl value => render_rest env (Some (is_true_text value))
  | inr ex =>
      if is_undefined_error ex
      then _LOGGER_warning "Could not render template %s, the state is unknown"
             [ArgStr (_name self)] ;;
           ret None
      else _LOGGER_error "Could not render template %s: %s"
             [ArgStr (_name self); ArgExc ex] ;;
           render_rest env None
  end.

(** ** The host functions the component calls

    They live outside [binary_sensor.py]; each is modelled by what the
    specification says of it. *)

(** Modelled from the spec: the property [state] inherited from
    [BinarySensorDevice], whose class is not part of the file; the check in
    [async_check_state] compares the new value with "the already-committed
    value" (section 4.3), so the property is read as the committed value. *)
Definition state (self : BinarySensorTemplate) : option bool := is_on self.

(** Modelled from the spec: [async_schedule_update_ha_state], inherited from
    the host's entity class; the publish contract of section 6, an
    atomic hand-off of value, attributes, icon, picture and availability. *)
Definition async_schedule_update_ha_state : M unit :=
  self <- get_self ;;
  emit (Published (snapshot_of self)).

(** Modelled from the spec: [async_track_same_state] of the host's event
    helpers; section 4.3, a single timer for the duration asked for, and
    "starting a new timer cancels and replaces any existing one".  The
    action and the check are the closures of [async_check_state], which
    differ only in the captured [state]. *)
Definition async_track_same_state (period : timedelta) (target : bool)
    (entity_ids : EntityIds) : M unit :=
  fun w =>
    (tt, with_timers
           (fun _ => [mkTimer period (now w + period) entity_ids target]) w).

(** Modelled from the spec: [async_track_state_change] of the host's event
    helpers; section 6, [subscribe(keys, callback)].  The only callback
    ever passed is [template_bsensor_state_listener]. *)
Definition async_track_state_change (entity_ids : list string) : M unit :=
  fun w => (tt, with_state_listeners (fun l => app l [entity_ids]) w).

(** Modelled from the spec: [hass.bus.async_listen_once] for
    [EVENT_HOMEASSISTANT_START]; section 6, a one-shot "system started"
    signal.  The only callback ever passed is [template_bsensor_startup]. *)
Definition async_listen_once_start : M unit :=
  fun w => (tt, with_startup_listeners (S (startup_listeners w)) w).

(** ** [async_check_state] and its closures *)

(** The closure [set_state] (lines 311-315), with the captured [state]. *)
Definition set_state (state : bool) : M unit :=
  modify_self (set__state (Some state)) ;;
  async_schedule_update_ha_state.

(** The closure [lambda *args: self._async_render() == state]
    (line 328). *)
Definition async_check_same_func (env : render_env) (state : bool) : M bool :=
  r <- _async_render env ;;
  ret (bool_decide (r = Some state)).

(** The test of line 318. *)
Definition without_delay (self : BinarySensorTemplate) (state : bool) : bool :=
  (state && negb (truthy (_delay_on self)))
  || (negb state && negb (truthy (_delay_off self))).

(** The expression of line 322. *)
Definition period_for (self : BinarySensorTemplate) (state : bool)
  : option timedelta :=
  if state then _delay_on self else _delay_off self.

(** [BinarySensorTemplate.async_check_state].  Past line 318 the chosen
    delay is never [None] (lemma [delayed_period_is_set] below); the
    [None] branch stands for the type error Python would raise there. *)
Definition async_check_state (env : render_env) : M unit :=
  new_state <- _async_render env ;;
  self <- get_self ;;
  match new_state with
  | None => ret tt
  | Some st =>
      if bool_decide (Some st = state self) then ret tt
      else if without_delay self st then set_state st
      else
        let period := period_for self st in
        match period with
        | Some p => async_track_same_state p st (_entities self)
        | None => ret tt
        end
  end.

(** [BinarySensorTemplate.async_update] *)
Definition async_update (env : render_env) : M unit :=
  async_check_state env.

(** The callback [template_bsensor_state_listener] of
    [async_added_to_hass]. *)
Definition template_bsensor_state_listener (entity : string)
    (env : render_env) : M unit :=
  async_check_state env.

(** The callback [template_bsensor_startup] of [async_added_to_hass]. *)
Definition template_bsensor_startup (env : render_env) : M unit :=
  self <- get_self ;;
  match _entities self with
   | MATCH_ALL => ret tt
   | Ids ids => async_track_state_change ids
   end ;;
  async_check_state env.

(** [BinarySensorTemplate.async_added_to_hass] *)
Definition async_added_to_hass : M unit := async_listen_once_start.

(** ** The host's side: delivery of events

    Modelled from the spec (sections 4.3, 4.4, 5 and 6): events are
    delivered one at a time; the start signal is consumed once; a change of
    an upstream key calls the listener of every subscription that holds the
    key; a pending timer is discarded when its deadline is reached, its
    check is made, and its action runs if the check holds. *)

(** Modelled from the spec: the events the host delivers to the sensor
    (section 5): the start signal, the change of an upstream key, a forced
    update, the passing of time.  Each carries the template engine as it
    answers at that moment. *)
Inductive host_event :=
| HomeassistantStart (env : render_env)
| StateChanged (entity : string) (env : render_env)
| ForcedUpdate (env : render_env)
| ClockReaches (t : Z) (env : render_env).

(** Modelled from the spec: the one-shot start signal of the host's bus. *)
Definition deliver_start (env : render_env) : M unit :=
  fun w =>
    match startup_listeners w with
    | O => (tt, w)
    | S n => template_bsensor_startup env (with_startup_listeners O w)
    end.

(** Modelled from the spec: every subscription that holds the key has its
    callback called, in the order of subscription. *)
Fixpoint call_listeners (entity : string) (env : render_env)
    (subs : list (list string)) : M unit :=
  match subs with
  | [] => ret tt
  | keys :: rest =>
      (if bool_decide (entity ∈ keys)
       then template_bsensor_state_listener entity env
       else ret tt) ;;
      call_listeners entity env rest
  end.

(** Modelled from the spec: change notification of the state store. *)
Definition deliver_state_change (entity : string) (env : render_env) : M unit :=
  fun w => call_listeners entity env (state_listeners w) w.

(** Modelled from the spec: what happens when a timer is due (section 4.3,
    [PendingCommit -> Committed]). *)
Definition fire_timer (env : render_env) (tm : Timer) : M unit :=
  same <- async_check_same_func env (timer_target tm) ;;
  if same then set_state (timer_target tm) else ret tt.

(** Modelled from the spec: the timers that are due fire one after the
    other. *)
Fixpoint fire_timers (env : render_env) (due : list Timer) : M unit :=
  match due with
  | [] => ret tt
  | tm :: rest => fire_timer env tm ;; fire_timers env rest
  end.

(** Modelled from the spec: a timer is due once the clock has reached its
    deadline. *)
Definition is_due (t : Z) (tm : Timer) : bool := timer_deadline tm <=? t.

(** Modelled from the spec: the passing of time on the host's clock. *)
Definition deliver_clock (t : Z) (env : render_env) : M unit :=
  fun w =>
    if t <? now w then (tt, w)
    else
      let due := List.filter (is_due t) (timers w) in
      let w1 := with_timers (List.filter (fun tm => negb (is_due t tm))) w in
      (tt, with_now t (fire_timers env due w1).2).

(** Modelled from the spec: delivery of one event; a forced update is the
    host calling [async_update]. *)
Definition deliver (ev : host_event) : M unit :=
  match ev with
  | HomeassistantStart env => deliver_start env
  | StateChanged entity env => deliver_state_change entity env
  | ForcedUpdate env => async_update env
  | ClockReaches t env => deliver_clock t env
  end.

(** Modelled from the spec: events are delivered one at a time, each to
    the world the previous one left (section 5). *)
Fixpoint run (evs : list host_event) (w : Hass) : Hass :=
  match evs with
  | [] => w
  | ev :: rest => run rest (deliver ev w).2
  end.

(** A sensor just constructed and added to the host: nothing logged, no
    timer, no subscription, the start listener registered. *)
Definition added (self : BinarySensorTemplate) (t0 : Z) : Hass :=
  (async_added_to_hass (mkHass self [] [] t0 [] O)).2.

(** ** [async_setup_platform] *)

(** One entry of [config[CONF_SENSORS]], after schema validation. *)
Record DeviceConfig := mkDeviceConfig {
  cfg_value_template : Template;
  cfg_icon_template : option Template;
  cfg_entity_picture_template : option Template;
  cfg_availability_template : option Template;
  cfg_attribute_templates : option (list (string * Template));
  cfg_friendly_name : option string;
  cfg_entity_id : option (list string);
  cfg_device_class : option string;
  cfg_delay_on : option timedelta;
  cfg_delay_off : option timedelta
}.

(** The variable [entity_ids] inside the loop: the sentinel, or a set. *)
Inductive tracked :=
| TrackAll
| TrackSet (s : gset string).

(** The text of the warning of lines 101-108. *)
Definition setup_warning_text : string :=
  "Template binary sensor %s has no entity ids configured to"
  ++ " track nor were we able to extract the entities to track"
  ++ " from the %s template(s). This entity will only be able"
  ++ " to be updated manually.".

Section Setup.

(** The configuration keys imported from [homeassistant.const] and
    [.const]; four distinct strings whose values the file does not show. *)
Variables CONF_VALUE_TEMPLATE CONF_ICON_TEMPLATE : string.
Variables CONF_ENTITY_PICTURE_TEMPLATE CONF_AVAILABILITY_TEMPLATE : string.

(** [template.extract_entities()], part of the template engine: the
    entities a template refers to, or [MATCH_ALL]. *)
Variable extract_entities : Template -> EntityIds.

(** [async_generate_entity_id(ENTITY_ID_FORMAT, device, hass=hass)] *)
Variable generate_entity_id : string -> string.

(** The state of the loop of lines 79-93. *)
Record resolution := mkResolution {
  res_entity_ids : tracked;
  invalid_templates : list string;
  res_trace : list effect
}.

(** One turn of the loop of lines 79-93.  The assignment
    [template.hass = hass] of line 82 has no part in what the loop
    computes and is left out. *)
Definition resolve_step (manual_entity_ids : option (list string))
    (acc : resolution) (entry : string * option Template) : resolution :=
  let (tpl_name, template) := entry in
  match template with
  | None => acc
  | Some template =>
      match manual_entity_ids with
      | Some _ => acc
      | None =>
          let tr := app (res_trace acc) [Extracted template] in
          match extract_entities template with
          | MATCH_ALL =>
              mkResolution TrackAll
                (app (invalid_templates acc) [Py.replace tpl_name "_template" ""])
                tr
          | Ids template_entity_ids =>
              match res_entity_ids acc with
              | TrackAll => mkResolution TrackAll (invalid_templates acc) tr
              | TrackSet s =>
                  mkResolution (TrackSet (s ∪ list_to_set template_entity_ids))
                    (invalid_templates acc) tr
              end
          end
      end
  end.

(** [chain(templates.items(), attribute_templates.items())] *)
Definition chained_templates (cfg : DeviceConfig) : list (string * option Template) :=
  app [(CONF_VALUE_TEMPLATE, Some (cfg_value_template cfg));
       (CONF_ICON_TEMPLATE, cfg_icon_template cfg);
       (CONF_ENTITY_PICTURE_TEMPLATE, cfg_entity_picture_template cfg);
       (CONF_AVAILABILITY_TEMPLATE, cfg_availability_template cfg)]
      (map (fun kv => (kv.1, Some kv.2)) (default [] (cfg_attribute_templates cfg))).

(** The loop of lines 79-93. *)
Definition resolve_loop (cfg : DeviceConfig) : resolution :=
  fold_left (resolve_step (cfg_entity_id cfg)) (chained_templates cfg)
    (mkResolution (TrackSet ∅) [] []).

(** Lines 95-98: the value passed to the constructor as [entity_ids]. *)
Definition resolved_entity_ids (cfg : DeviceConfig) : EntityIds :=
  match cfg_entity_id cfg with
  | Some manual_entity_ids => Ids manual_entity_ids
  | None =>
      match res_entity_ids (resolve_loop cfg) with
      | TrackAll => MATCH_ALL
      | TrackSet s => Ids (elements s)
      end
  end.

(** Lines 100-108: the warning, when [invalid_templates] is not empty. *)
Definition setup_warning (device : string) (cfg : DeviceConfig) : list effect :=
  match invalid_templates (resolve_loop cfg) with
  | [] => []
  | names =>
      [LogWarning setup_warning_text
         [ArgStr device; ArgStr (Py.join ", " names)]]
  end.

(** The effects of the body of the outer loop for one device. *)
Definition setup_effects (device : string) (cfg : DeviceConfig) : list effect :=
  app (res_trace (resolve_loop cfg)) (setup_warning device cfg).

(** The sensor built by the body of the outer loop for one device. *)
Definition setup_sensor (device : string) (cfg : DeviceConfig) : BinarySensorTemplate :=
  __init__ (generate_entity_id device)
    (default device (cfg_friendly_name cfg))
    (cfg_device_class cfg)
    (cfg_value_template cfg)
    (cfg_icon_template cfg)
    (cfg_entity_picture_template cfg)
    (cfg_availability_template cfg)
    (resolved_entity_ids cfg)
    (cfg_delay_on cfg)
    (cfg_delay_off cfg)
    (Some (default [] (cfg_attribute_templates cfg))).

(** [async_setup_platform]: the sensors handed to [async_add_entities],
    the effects, and the value returned. *)
Definition async_setup_platform (sensors_config : list (string * DeviceConfig))
  : list BinarySensorTemplate * list effect * bool :=
  let sensors := map (fun dc => setup_sensor dc.1 dc.2) sensors_config in
  let effects := List.concat (map (fun dc => setup_effects dc.1 dc.2) sensors_config) in
  match sensors with
  | [] => ([], app effects [LogError "No sensors added" []], false)
  | _ => (sensors, effects, true)
  end.

End Setup.

(** * Vocabulary of the properties *)

(** What [_async_render] computes from the value template alone: the
    candidate of step 1. *)
Definition value_candidate (env : render_env) (self : BinarySensorTemplate)
  : option bool :=
  match env (_template self) with
  | inl value => Some (is_true_text value)
  | inr _ => None
  end.

(** The pass leaves [_async_render] at line 253. *)
Definition aborts_early (env : render_env) (self : BinarySensorTemplate) : bool :=
  match env (_template self) with
  | inl _ => false
  | inr ex => is_undefined_error ex
  end.

(** The dictionary of lines 265-269. *)
Definition property_templates (self : BinarySensorTemplate)
  : list (string * option Template) :=
  [("_icon", _icon_template self);
   ("_entity_picture", _entity_picture_template self);
   ("_available", _availability_template self)].

(** The effects added by running [m] from [w]. *)
Definition pass_events {A} (m : M A) (w : Hass) : list effect :=
  drop (List.length (trace w)) (trace (m w).2).

(** The fields of the sensor that rendering never writes. *)
Definition settings (self : BinarySensorTemplate) :=
  (entity_id self, _name self, _device_class self, _template self,
   _icon_template self, _availability_template self,
   _entity_picture_template self, _entities self, _delay_on self,
   _delay_off self, _attribute_templates self).

(** An effect that is not a state write handed to the host. *)
Definition quiet (e : effect) : Prop :=
  match e with
  | Published _ => False
  | _ => True
  end.

(** No state write among the effects. *)
Definition publishes_nothing (evs : list effect) : Prop :=
  forall snap, Published snap ∉ evs.

(** [w'] differs from [w] at most by the rendered fields of the sensor and
    by quiet effects added at the end of the trace. *)
Record renders_only (w w' : Hass) : Prop := mkRendersOnly {
  ro_timers : timers w' = timers w;
  ro_now : now w' = now w;
  ro_state_listeners : state_listeners w' = state_listeners w;
  ro_startup_listeners : startup_listeners w' = startup_listeners w;
  ro_settings : settings (sensor w') = settings (sensor w);
  ro_state : _state (sensor w') = _state (sensor w);
  ro_trace : exists evs, trace w' = app (trace w) evs /\ Forall quiet evs
}.

Definition rendering {A} (m : M A) : Prop := forall w, renders_only w (m w).2.

(** ** The phases of a pass, as pure functions of the environment *)

Definition add_events (evs : list effect) (w : Hass) : Hass :=
  mkHass (sensor w) (app (trace w) evs) (timers w) (now w) (state_listeners w)
    (startup_listeners w).

(** The effects of rendering the value template (lines 243-254) when the
    pass goes on. *)
Definition value_events (env : render_env) (self : BinarySensorTemplate)
  : list effect :=
  Rendered (_template self) ::
  match env (_template self) with
  | inl _ => []
  | inr ex =>
      [LogError "Could not render template %s: %s" [ArgStr (_name self); ArgExc ex]]
  end.

(** The attributes that render, stored over [attrs]. *)
Definition rendered_attributes (env : render_env)
    (items : list (string * Template)) (attrs : gmap string string)
  : gmap string string :=
  fold_left
    (fun acc kv => match env kv.2 with inl v => <[kv.1 := v]> acc | inr _ => acc end)
    items attrs.

(** The effects of the attribute loop. *)
Definition attribute_events (env : render_env) (items : list (string * Template))
  : list effect :=
  flat_map
    (fun kv =>
       Rendered kv.2 ::
       match env kv.2 with
       | inl _ => []
       | inr err =>
           [LogError "Error rendering attribute %s: %s" [ArgStr kv.1; ArgExc err]]
       end)
    items.

(** The world after lines 256-263. *)
Definition attributes_phase (env : render_env) (w : Hass) : Hass :=
  match _attribute_templates (sensor w) with
  | Some items =>
      with_sensor (set__attributes (rendered_attributes env items ∅))
        (add_events (attribute_events env items) w)
  | None => w
  end.

(** The world after lines 242-263 of a pass that goes on. *)
Definition before_properties (env : render_env) (w : Hass) : Hass :=
  attributes_phase env (add_events (value_events env (sensor w)) w).

(** [getattr(self, property_name)] for the three names of the loop. *)
Definition getattr (property_name : string) (self : BinarySensorTemplate)
  : option attr_value :=
  if String.eqb property_name "_icon" then VStr <$> _icon self
  else if String.eqb property_name "_entity_picture" then VStr <$> _entity_picture self
  else if String.eqb property_name "_available" then Some (VBool (_available self))
  else None.

(** An entry of the loop of step 3 that does not stop it: no template, or a
    template that renders. *)
Definition renders_ok (env : render_env) (entry : string * option Template) : Prop :=
  match entry.2 with
  | None => True
  | Some t => exists value, env t = inl value
  end.

(** The log record of a failure in step 3 (lines 281-297). *)
Definition failure_record (property_name : string) (self : BinarySensorTemplate)
    (ex : TemplateError) : effect :=
  let friendly_property_name := Py.replace (Py.tail property_name) "_" " " in
  if is_undefined_error ex
  then LogWarning "Could not render %s template %s, the state is unknown."
         [ArgStr friendly_property_name; ArgStr (_name self)]
  else LogError "Could not render %s template %s: %s"
         [ArgStr friendly_property_name; ArgStr (_name self); ArgExc ex].

(** The value assigned to a field of step 3 from the rendered text
    (lines 276-278). *)
Definition assigned_value (property_name value : string) : attr_value :=
  if String.eqb property_name "_available"
  then VBool (is_true_text value) else VStr value.

(** The entries of a list of named templates that have a template. *)
Definition configured (l : list (string * option Template))
  : list (string * Template) :=
  omap (fun entry => match entry.2 with
                     | Some t => Some (entry.1, t)
                     | None => None
                     end) l.

(** ** Sample sensors and environments *)

Module Samples.

Definition door_value : Template :=
  MkTemplate "{{ states.binary_sensor.door.state == 'on' }}".
Definition door_icon : Template :=
  MkTemplate "{{ 'mdi:door-open' if is_state('binary_sensor.door', 'on') else 'mdi:door' }}".
Definition door_picture : Template := MkTemplate "/local/{{ states('input_text.pic') }}.png".
Definition door_availability : Template :=
  MkTemplate "{{ not is_state('binary_sensor.door', 'unavailable') }}".
Definition door_battery : Template := MkTemplate "{{ state_attr('binary_sensor.door', 'battery') }}".
Definition door_room : Template := MkTemplate "{{ states('input_text.room') }}".

(** A sensor with every template configured, a delay of three units for
    switching on and none for switching off. *)
Definition door : BinarySensorTemplate :=
  __init__ "binary_sensor.door_open" "Door open" (Some "door")
    door_value (Some door_icon) (Some door_picture) (Some door_availability)
    (Ids ["binary_sensor.door"; "input_text.pic"; "input_text.room"])
    (Some 3) None
    (Some [("battery", door_battery); ("room", door_room)]).

Definition undefined_error : TemplateError :=
  MkTemplateError ["UndefinedError: 'None' has no attribute 'state'"].
Definition syntax_error : TemplateError :=
  MkTemplateError ["TemplateSyntaxError: unexpected end of template"].

Definition template_eqb (a b : Template) : bool :=
  match a, b with MkTemplate x, MkTemplate y => String.eqb x y end.

(** An environment given by a table; templates not listed render as the
    empty text. *)
Fixpoint env_of (table : list (Template * render_result)) : render_env :=
  fun t =>
    match table with
    | [] => inl ""
    | (t', r) :: rest => if template_eqb t t' then r else env_of rest t
    end.

(** The door is open, everything renders. *)
Definition env_open : render_env :=
  env_of [(door_value, inl "True"); (door_icon, inl "mdi:door-open");
          (door_picture, inl "/local/open.png"); (door_availability, inl "true");
          (door_battery, inl "87"); (door_room, inl "hall")].

(** The door is closed, everything renders. *)
Definition env_closed : render_env :=
  env_of [(door_value, inl "False"); (door_icon, inl "mdi:door");
          (door_picture, inl "/local/closed.png"); (door_availability, inl "true");
          (door_battery, inl "86"); (door_room, inl "hall")].

(** Start of the host: the door entity has no state yet. *)
Definition env_starting : render_env :=
  env_of [(door_value, inr undefined_error); (door_icon, inl "mdi:door");
          (door_picture, inl "/local/closed.png"); (door_availability, inl "true");
          (door_battery, inl "86"); (door_room, inl "hall")].

(** The door is open; the icon and the battery attribute fail. *)
Definition env_icon_fails : render_env :=
  env_of [(door_value, inl "true"); (door_icon, inr syntax_error);
          (door_picture, inl "/local/open.png"); (door_availability, inl "false");
          (door_battery, inr syntax_error); (door_room, inl "attic")].

(** The value template fails for another reason than an undefined
    reference. *)
Definition env_value_broken : render_env :=
  env_of [(door_value, inr syntax_error); (door_icon, inl "mdi:door");
          (door_picture, inr undefined_error); (door_availability, inl "false");
          (door_battery, inl "85"); (door_room, inr syntax_error)].

(** The host just after the sensor was added, at time 0. *)
Definition fresh : Hass := added door 0.

(** The host after one full pass with the door open. *)
Definition seen_open : Hass := (_async_render env_open fresh).2.

End Samples.

Module SetupSamples.

Definition all_states : Template := MkTemplate "{{ states | count > 10 }}".
Definition sun_up : Template := MkTemplate "{{ is_state('sun.sun', 'above_horizon') }}".
Definition sun_icon : Template :=
  MkTemplate "{{ 'mdi:weather-sunny' if is_state('sun.sun', 'above_horizon') else 'mdi:weather-night' }}".
Definition elevation : Template := MkTemplate "{{ state_attr('sun.sun', 'elevation') }}".
Definition any_light : Template :=
  MkTemplate "{{ states.light | selectattr('state', 'eq', 'on') | list | count > 0 }}".

(** The engine's answer for the sample templates. *)
Definition extract_entities (t : Template) : EntityIds :=
  if Samples.template_eqb t all_states then MATCH_ALL
  else if Samples.template_eqb t any_light then MATCH_ALL
  else if Samples.template_eqb t sun_up then Ids ["sun.sun"]
  else if Samples.template_eqb t sun_icon then Ids ["sun.sun"]
  else if Samples.template_eqb t elevation then Ids ["sun.sun"; "sensor.time"]
  else Ids [].

Definition generate_entity_id (device : string) : string :=
  "binary_sensor." ++ device.

(** Every template is bounded. *)
Definition sun_config : DeviceConfig :=
  mkDeviceConfig sun_up (Some sun_icon) None None
    (Some [("elevation", elevation)]) (Some "Sun is up") None None None None.

(** The value template and one attribute template are unbounded. *)
Definition busy_config : DeviceConfig :=
  mkDeviceConfig all_states (Some sun_icon) None None
    (Some [("elevation", elevation); ("lights_template", any_light)])
    None None None (Some 5) None.

(** The same, with the entities given by hand. *)
Definition manual_config : DeviceConfig :=
  mkDeviceConfig all_states (Some sun_icon) None None
    (Some [("elevation", elevation); ("lights_template", any_light)])
    None (Some ["sensor.time"]) None (Some 5) None.

End SetupSamples.

(** ** C1: an undefined reference in the value template *)

(** The steps that follow the value template in a pass: every attribute
    template is rendered, and the icon template, first of the sequence of
    step 3, is rendered. *)
Definition remaining_steps_attempted (env : render_env) (w : Hass) : Prop :=
  (forall items key t,
      _attribute_templates (sensor w) = Some items ->
      (key, t) ∈ items ->
      Rendered t ∈ pass_events (_async_render env) w)
  /\ (forall t,
      _icon_template (sensor w) = Some t ->
      Rendered t ∈ pass_events (_async_render env) w).

(** C1 as the specification words it: after an undefined-reference failure
    of the value template the pass logs a warning, has the candidate
    [None], and still attempts the remaining steps. *)
Definition undefined_value_continues (env : render_env) (w : Hass) : Prop :=
  aborts_early env (sensor w) = true ->
  LogWarning "Could not render template %s, the state is unknown"
    [ArgStr (_name (sensor w))] ∈ pass_events (_async_render env) w
  /\ (_async_render env w).1 = None
  /\ remaining_steps_attempted env w.

(** ** C2: the effects of a pass, in order *)

(** The effects of steps 1 and 2 of a pass that goes on: the value
    template, then the attribute templates. *)
Definition steps_1_2_events (env : render_env) (self : BinarySensorTemplate)
  : list effect :=
  app (value_events env self)
    (match _attribute_templates self with
     | Some items => attribute_events env items
     | None => []
     end).

(** One rendering for each entry that has a template, in the order of the
    entries. *)
Definition rendered_in_order (l : list (string * option Template))
  : list effect :=
  map (fun entry => Rendered entry.2) (configured l).

(** C2 as the specification words it, at one pass, for its first sentence:
    in every pass icon, entity picture and availability are evaluated in
    that order.  When the three templates render, the pass ends with their
    renderings, in order. *)
Definition step_3_runs_in_every_pass (env : render_env) (w : Hass) : Prop :=
  Forall (renders_ok env) (property_templates (sensor w)) ->
  exists evs,
    pass_events (_async_render env) w
    = app evs (rendered_in_order (property_templates (sensor w))).

(** ** C4 as the specification words it *)


(** ** C8: the entities a sensor is set up with *)

(** A template whose entities cannot be listed. *)
Definition is_unbounded (extract_entities : Template -> EntityIds)
    (t : Template) : bool :=
  match extract_entities t with
  | MATCH_ALL => true
  | Ids _ => false
  end.

(** The configured entries whose template is unbounded, in the order of the
    chain. *)
Definition offending (extract_entities : Template -> EntityIds)
    (l : list (string * option Template)) : list (string * Template) :=
  List.filter (fun entry => is_unbounded extract_entities entry.2) (configured l).

(** Their names as the warning prints them. *)
Definition offending_names (extract_entities : Template -> EntityIds)
    (l : list (string * option Template)) : list string :=
  map (fun entry => Py.replace entry.1 "_template" "")
    (offending extract_entities l).

(** The entities the bounded templates refer to. *)
Definition referenced (extract_entities : Template -> EntityIds)
    (l : list (string * option Template)) : gset string :=
  ⋃ (map (fun entry => match extract_entities entry.2 with
                       | MATCH_ALL => ∅
                       | Ids ids => list_to_set ids
                       end) (configured l)).

(** The entities gathered so far, joined with a set. *)
Definition join_tracked (acc : tracked) (s : gset string) : tracked :=
  match acc with
  | TrackAll => TrackAll
  | TrackSet s0 => TrackSet (s0 ∪ s)
  end.

(** ** C9: what a sensor is subscribed to *)

(** The change of [key] concerns a sensor that tracks [ids]. *)
Definition tracks (ids : EntityIds) (key : string) : bool :=
  match ids with
  | MATCH_ALL => false
  | Ids l => bool_decide (key ∈ l)
  end.

(** The subscriptions a sensor that tracks [ids] asks for at the start. *)
Definition subscriptions_for (ids : EntityIds) : list (list string) :=
  match ids with
  | MATCH_ALL => []
  | Ids l => [l]
  end.

(** * Vocabulary of the further properties *)

(** The value of the last state write in a trace, [None] when the trace
    has none. *)
Definition last_published (tr : list effect) : option bool :=
  fold_left
    (fun acc e => match e with Published snap => snap_is_on snap | _ => acc end)
    tr None.

(** The number of state writes in a trace. *)
Definition count_published (tr : list effect) : nat :=
  List.length (List.filter (fun e => match e with Published _ => true | _ => false end) tr).

(** The text assigned to the field [name] by the loop of step 3 over
    [templates]: the rendering of the last entry of that name before the
    first failure, [None] when the loop does not assign the field. *)
Fixpoint assigned_text (env : render_env)
    (templates : list (string * option Template)) (name : string)
  : option string :=
  match templates with
  | [] => None
  | (_, None) :: rest => assigned_text env rest name
  | (property_name, Some template) :: rest =>
      match env template with
      | inr _ => None
      | inl value =>
          match assigned_text env rest name with
          | Some later => Some later
          | None => if String.eqb property_name name then Some value else None
          end
      end
  end.

(** The names of the configured attributes. *)
Definition attribute_names (self : BinarySensorTemplate) : list string :=
  match _attribute_templates self with
  | Some items => items.*1
  | None => []
  end.

(** The sixteen spellings of [true]. *)
Definition true_spellings : list string :=
  ["true"; "truE"; "trUe"; "trUE"; "tRue"; "tRuE"; "tRUe"; "tRUE";
   "True"; "TruE"; "TrUe"; "TrUE"; "TRue"; "TRuE"; "TRUe"; "TRUE"].

(** A pending timer agrees with the configuration of the sensor: its period
    is the delay configured for its direction, is not zero, and it was
    started at a moment that is not in the future. *)
Definition timer_as_configured (w : Hass) (tm : Timer) : Prop :=
  period_for (sensor w) (timer_target tm) = Some (timer_period tm)
  /\ timer_period tm <> 0
  /\ timer_entity_ids tm = _entities (sensor w)
  /\ timer_deadline tm - timer_period tm <= now w.

(** A state write carries a boolean, never the unknown state. *)
Definition writes_boolean (e : effect) : Prop :=
  match e with
  | Published snap => is_Some (snap_is_on snap)
  | _ => True
  end.

Module MoreSamples.

(** A sensor with a value template only, tracking everything, with a zero
    delay for switching off. *)
Definition plain : BinarySensorTemplate :=
  __init__ "binary_sensor.plain" "Plain" None
    Samples.door_value None None None MATCH_ALL None (Some 0) (Some []).

End MoreSamples.

(** The sensor still waits for the start signal of the host, and is
    subscribed to nothing. *)
Definition waiting_for_start (w : Hass) : Prop :=
  startup_listeners w = 1%nat /\ state_listeners w = [].

(** The start signal was consumed and the sensor holds the subscription it
    asked for then. *)
Definition started (w : Hass) : Prop :=
  startup_listeners w = O
  /\ state_listeners w = subscriptions_for (_entities (sensor w)).

(** An event that is not the start signal. *)
Definition not_start (ev : host_event) : Prop :=
  match ev with
  | HomeassistantStart _ => False
  | _ => True
  end.

(** An effect of the set-up of a device: a question to the template engine
    or a warning. *)
Definition is_setup_step (e : effect) : Prop :=
  match e with
  | Extracted _ | LogWarning _ _ => True
  | _ => False
  end.

(** A sensor as [__init__] leaves it: state unknown, no icon, no picture,
    available, no attributes. *)
Definition freshly_built (self : BinarySensorTemplate) : Prop :=
  _state self = None /\ _icon self = None /\ _entity_picture self = None
  /\ _available self = true /\ _attributes self = ∅.

Module MoreSetupSamples.

(** The keys of the configuration as Home Assistant spells them. *)
Definition setup :=
  async_setup_platform "value_template" "icon_template"
    "entity_picture_template" "availability_template"
    SetupSamples.extract_entities SetupSamples.generate_entity_id.

Definition sensor_of :=
  setup_sensor "value_template" "icon_template"
    "entity_picture_template" "availability_template"
    SetupSamples.extract_entities SetupSamples.generate_entity_id.

End MoreSetupSamples.

(** A log record of warning level. *)
Definition is_warning (e : effect) : bool :=
  match e with
  | LogWarning _ _ => true
  | _ => false
  end.

(** The set-up of a device logs its warning: no entities were given by hand
    and [offenders], its unbounded templates, are not empty. *)
Definition warns (manual_entity_ids : option (list string))
    (offenders : list (string * Template)) : bool :=
  match manual_entity_ids, offenders with
  | None, _ :: _ => true
  | _, _ => false
  end.

(** The same configuration with other attribute templates. *)
Definition with_attribute_templates (items : list (string * Template))
    (cfg : DeviceConfig) : DeviceConfig :=
  mkDeviceConfig (cfg_value_template cfg) (cfg_icon_template cfg)
    (cfg_entity_picture_template cfg) (cfg_availability_template cfg)
    (Some items) (cfg_friendly_name cfg) (cfg_entity_id cfg)
    (cfg_device_class cfg) (cfg_delay_on cfg) (cfg_delay_off cfg).

(** Two values of [entity_ids] that name the same entities. *)
Definition same_entities (a b : EntityIds) : Prop :=
  match a, b with
  | MATCH_ALL, MATCH_ALL => True
  | Ids l, Ids l' => l ≡ₚ l'
  | _, _ => False
  end.

(** * Properties *)

(** ** The primitives on sample inputs *)

Example lower_mixed_case : Py.lower "TrUe" = "true".
Proof. reflexivity. Qed.

Example true_text_any_case : is_true_text "True" = true.
Proof. reflexivity. Qed.

Example true_text_is_exact : is_true_text " true" = false.
Proof. reflexivity. Qed.

Example replace_cuts_template :
  Py.replace "entity_picture_template" "_template" "" = "entity_picture".
Proof. reflexivity. Qed.

Example replace_every_occurrence :
  Py.replace "a_template_b_template" "_template" "" = "a_b".
Proof. reflexivity. Qed.

Example friendly_entity_picture :
  Py.replace (Py.tail "_entity_picture") "_" " " = "entity picture".
Proof. reflexivity. Qed.

Example join_names : Py.join ", " ["value"; "icon"; "lights"] = "value, icon, lights".
Proof. reflexivity. Qed.

Example undefined_error_is_soft :
  is_undefined_error Samples.undefined_error = true.
Proof. reflexivity. Qed.

Example syntax_error_is_hard :
  is_undefined_error Samples.syntax_error = false.
Proof. reflexivity. Qed.

Example error_without_args_is_hard :
  is_undefined_error (MkTemplateError []) = false.
Proof. reflexivity. Qed.

Example zero_delay_is_no_delay : truthy (Some 0) = false.
Proof. reflexivity. Qed.

(** A full pass of the door sensor with the door open. *)
Example door_seen_open :
  (_async_render Samples.env_open Samples.fresh).1 = Some true
  /\ _icon (sensor Samples.seen_open) = Some "mdi:door-open"
  /\ _entity_picture (sensor Samples.seen_open) = Some "/local/open.png"
  /\ _available (sensor Samples.seen_open) = true
  /\ _attributes (sensor Samples.seen_open) !! "battery" = Some "87"
  /\ _state (sensor Samples.seen_open) = None.
Proof. vm_compute. by repeat split. Qed.

(** The icon fails: the picture and the availability are not rendered,
    although the availability template would now say false. *)
Example door_icon_fails :
  let w' := (_async_render Samples.env_icon_fails Samples.seen_open).2 in
  _icon (sensor w') = Some "mdi:door-open"
  /\ _entity_picture (sensor w') = Some "/local/open.png"
  /\ _available (sensor w') = true
  /\ _attributes (sensor w') !! "battery" = None
  /\ _attributes (sensor w') !! "room" = Some "attic".
Proof. vm_compute. by repeat split. Qed.

(** ** What one recompute pass may touch *)

Lemma renders_only_refl w : renders_only w w.
Proof.
  split; try reflexivity. exists []. split; [by rewrite app_nil_r|constructor].
Qed.

Lemma renders_only_trans w1 w2 w3 :
  renders_only w1 w2 -> renders_only w2 w3 -> renders_only w1 w3.
Proof.
  intros [] []. split; try congruence.
  destruct ro_trace0 as (e1 & H1 & Hq1), ro_trace1 as (e2 & H2 & Hq2).
  exists (app e1 e2). split; [|by apply Forall_app].
  rewrite H2, H1. by rewrite app_assoc.
Qed.

Lemma rendering_ret {A} (a : A) : rendering (ret a).
Proof. intros w. apply renders_only_refl. Qed.

Lemma rendering_bind {A B} (m : M A) (k : A -> M B) :
  rendering m -> (forall a, rendering (k a)) -> rendering (bind m k).
Proof.
  intros Hm Hk w. unfold bind.
  eapply renders_only_trans; [apply Hm | apply Hk].
Qed.

Lemma rendering_emit e : quiet e -> rendering (emit e).
Proof.
  intros Hq w. split; try reflexivity. exists [e]. split; [done|].
  by repeat constructor.
Qed.

Lemma rendering_get_self : rendering get_self.
Proof. intros w. apply renders_only_refl. Qed.

Lemma rendering_modify_self f :
  (forall s, settings (f s) = settings s) ->
  (forall s, _state (f s) = _state s) ->
  rendering (modify_self f).
Proof.
  intros Hs Hst w. split; simpl; auto. exists [].
  split; [by rewrite app_nil_r|constructor].
Qed.

Lemma rendering_async_render env t : rendering (async_render env t).
Proof.
  apply rendering_bind; [by apply rendering_emit | intros; apply rendering_ret].
Qed.

Lemma setattr_settings name v s : settings (setattr name v s) = settings s.
Proof.
  unfold setattr.
  destruct v; repeat (case_match; try reflexivity).
Qed.

Lemma setattr_state name v s : _state (setattr name v s) = _state s.
Proof.
  unfold setattr.
  destruct v; repeat (case_match; try reflexivity).
Qed.

Lemma rendering_render_attributes env items :
  forall attrs, rendering (render_attributes env items attrs).
Proof.
  induction items as [|[key value] rest IH]; intros attrs; simpl.
  - apply rendering_ret.
  - apply rendering_bind; [apply rendering_async_render|].
    intros [v|err]; [apply IH|].
    apply rendering_bind; [by apply rendering_emit | intros; apply IH].
Qed.

Lemma rendering_render_properties env templates state :
  rendering (render_properties env templates state).
Proof.
  induction templates as [|[name [t|]] rest IH]; simpl.
  - apply rendering_ret.
  - apply rendering_bind; [apply rendering_async_render|].
    intros [v|ex].
    + apply rendering_bind; [|intros; apply IH].
      apply rendering_modify_self;
        intros; [apply setattr_settings | apply setattr_state].
    + apply rendering_bind; [apply rendering_get_self|]. intros self.
      apply rendering_bind; [|intros; apply rendering_ret].
      destruct (is_undefined_error ex); by apply rendering_emit.
  - apply IH.
Qed.

Lemma rendering_render_rest env state : rendering (render_rest env state).
Proof.
  unfold render_rest.
  apply rendering_bind; [apply rendering_get_self|]. intros self.
  apply rendering_bind.
  - destruct (_attribute_templates self); [|apply rendering_ret].
    apply rendering_bind; [apply rendering_render_attributes|].
    intros attrs. by apply rendering_modify_self.
  - intros _. apply rendering_bind; [apply rendering_get_self|].
    intros. apply rendering_render_properties.
Qed.

Lemma rendering__async_render env : rendering (_async_render env).
Proof.
  unfold _async_render.
  apply rendering_bind; [apply rendering_get_self|]. intros self.
  apply rendering_bind; [apply rendering_async_render|].
  intros [v|ex]; [apply rendering_render_rest|].
  destruct (is_undefined_error ex).
  - apply rendering_bind; [by apply rendering_emit | intros; apply rendering_ret].
  - apply rendering_bind; [by apply rendering_emit | intros; apply rendering_render_rest].
Qed.

(** The trace only grows: the effects of a pass are what it appended. *)
Lemma trace_pass_events {A} (m : M A) w :
  rendering m -> trace (m w).2 = app (trace w) (pass_events m w).
Proof.
  intros Hm. destruct (ro_trace _ _ (Hm w)) as (evs & Hevs & _).
  unfold pass_events. rewrite Hevs. by rewrite drop_app_length.
Qed.

(** ** C1: an undefined reference in the value template *)

(** The whole pass when the value template fails with an undefined
    reference (lines 243-253). *)
Lemma _async_render_undefined env w ex :
  env (_template (sensor w)) = inr ex ->
  is_undefined_error ex = true ->
  _async_render env w =
    (None,
     with_effect
       (LogWarning "Could not render template %s, the state is unknown"
          [ArgStr (_name (sensor w))])
       (with_effect (Rendered (_template (sensor w))) w)).
Proof.
  intros Hex Hsoft.
  unfold _async_render, bind, get_self, async_render, emit, ret. simpl.
  by rewrite Hex, Hsoft.
Qed.

Lemma pass_events_undefined env w ex :
  env (_template (sensor w)) = inr ex ->
  is_undefined_error ex = true ->
  pass_events (_async_render env) w =
    [Rendered (_template (sensor w));
     LogWarning "Could not render template %s, the state is unknown"
       [ArgStr (_name (sensor w))]].
Proof.
  intros Hex Hsoft. unfold pass_events.
  rewrite (_async_render_undefined env w ex Hex Hsoft). simpl.
  rewrite <- app_assoc. by rewrite drop_app_length.
Qed.

(** C1, as amended: when the value template fails with an undefined
    reference, the pass logs one warning, returns [None] and ends there;
    nothing else is rendered and no field of the sensor is written. *)
Theorem undefined_value_ends_pass env w ex :
  env (_template (sensor w)) = inr ex ->
  is_undefined_error ex = true ->
  (_async_render env w).1 = None
  /\ pass_events (_async_render env) w =
       [Rendered (_template (sensor w));
        LogWarning "Could not render template %s, the state is unknown"
          [ArgStr (_name (sensor w))]]
  /\ sensor (_async_render env w).2 = sensor w.
Proof.
  intros Hex Hsoft.
  split; [by rewrite (_async_render_undefined env w ex)|].
  split; [by apply pass_events_undefined with ex|].
  by rewrite (_async_render_undefined env w ex).
Qed.

Lemma undefined_value_ends_pass_witness :
  (_async_render Samples.env_starting Samples.seen_open).1 = None
  /\ pass_events (_async_render Samples.env_starting) Samples.seen_open =
       [Rendered Samples.door_value;
        LogWarning "Could not render template %s, the state is unknown"
          [ArgStr "Door open"]]
  /\ sensor (_async_render Samples.env_starting Samples.seen_open).2
     = sensor Samples.seen_open.
Proof.
  apply (undefined_value_ends_pass Samples.env_starting Samples.seen_open
           Samples.undefined_error); reflexivity.
Defined.

(** C1, the counterexample: the door sensor has attribute templates and an
    icon template; when its value template meets an undefined reference,
    neither the attributes nor the icon are rendered in that pass. *)
Lemma undefined_value_skips_remaining_steps :
  ~ undefined_value_continues Samples.env_starting Samples.seen_open.
Proof.
  intros Hclaim.
  destruct (Hclaim eq_refl) as (_ & _ & _ & Hicon).
  specialize (Hicon Samples.door_icon eq_refl).
  rewrite (pass_events_undefined Samples.env_starting Samples.seen_open
             Samples.undefined_error eq_refl eq_refl) in Hicon.
  apply elem_of_cons in Hicon as [Hicon|Hicon]; [discriminate|].
  apply elem_of_cons in Hicon as [Hicon|Hicon]; [discriminate|].
  by apply elem_of_nil in Hicon.
Qed.

(** ** The phases of a pass *)

Lemma add_events_nil w : add_events [] w = w.
Proof. destruct w. unfold add_events. simpl. by rewrite app_nil_r. Qed.

Lemma add_events_app e1 e2 w :
  add_events e2 (add_events e1 w) = add_events (app e1 e2) w.
Proof. unfold add_events. simpl. by rewrite app_assoc. Qed.

Lemma with_effect_add_events e w : with_effect e w = add_events [e] w.
Proof. reflexivity. Qed.

Lemma render_attributes_run env items :
  forall attrs w,
    render_attributes env items attrs w =
      (rendered_attributes env items attrs,
       add_events (attribute_events env items) w).
Proof.
  induction items as [|[key value] rest IH]; intros attrs w.
  - simpl. by rewrite add_events_nil.
  - simpl. unfold bind, async_render, emit, ret, _LOGGER_error, emit. simpl.
    destruct (env value) as [v|err]; simpl.
    + rewrite IH. by rewrite with_effect_add_events, add_events_app.
    + unfold bind. simpl. rewrite IH.
      by rewrite !with_effect_add_events, !add_events_app.
Qed.

Lemma render_rest_run env state w :
  render_rest env state w =
    render_properties env (property_templates (sensor w)) state
      (attributes_phase env w).
Proof.
  unfold render_rest, attributes_phase, bind, get_self. simpl.
  destruct (_attribute_templates (sensor w)) as [items|]; [|reflexivity].
  unfold bind, modify_self. rewrite render_attributes_run. reflexivity.
Qed.

Lemma _async_render_run env w :
  aborts_early env (sensor w) = false ->
  _async_render env w =
    render_properties env (property_templates (sensor w))
      (value_candidate env (sensor w)) (before_properties env w).
Proof.
  unfold aborts_early, value_candidate, before_properties, value_events.
  intros Hgo.
  unfold _async_render, bind, get_self, async_render, emit, ret. simpl.
  destruct (env (_template (sensor w))) as [v|ex].
  - by rewrite render_rest_run.
  - rewrite Hgo. unfold bind, _LOGGER_error, emit. simpl.
    rewrite render_rest_run.
    by rewrite !with_effect_add_events, !add_events_app.
Qed.

(** The candidate returned by a pass is the one of step 1, whatever
    happens afterwards. *)
Lemma render_properties_returns env templates state :
  forall w, (render_properties env templates state w).1 = state.
Proof.
  induction templates as [|[name [t|]] rest IH]; intros w; simpl; auto.
  unfold bind, async_render, emit, ret. simpl.
  destruct (env t); simpl; [apply IH|reflexivity].
Qed.

Lemma _async_render_returns env w :
  (_async_render env w).1 = value_candidate env (sensor w).
Proof.
  destruct (aborts_early env (sensor w)) eqn:Habort.
  - unfold aborts_early in Habort. unfold value_candidate.
    destruct (env (_template (sensor w))) as [v|ex] eqn:Hex; [done|].
    by rewrite (_async_render_undefined env w ex).
  - rewrite _async_render_run by done. apply render_properties_returns.
Qed.

(** ** Step 3: icon, entity picture, availability *)

Lemma getattr_setattr_ne name name' v s :
  name <> name' -> getattr name (setattr name' v s) = getattr name s.
Proof.
  intros Hne. unfold getattr, setattr.
  destruct v;
    repeat match goal with
      | |- context [String.eqb ?a ?b] =>
          destruct (String.eqb_spec a b); subst; try congruence; simpl
      end; reflexivity.
Qed.

Lemma setattr_attributes name v s : _attributes (setattr name v s) = _attributes s.
Proof.
  unfold setattr.
  destruct v; repeat (case_match; try reflexivity).
Qed.

Lemma setattr_name name v s : _name (setattr name v s) = _name s.
Proof.
  unfold setattr.
  destruct v; repeat (case_match; try reflexivity).
Qed.

Lemma render_properties_getattr env templates state name :
  forall w,
    name ∉ templates.*1 ->
    getattr name (sensor (render_properties env templates state w).2)
    = getattr name (sensor w).
Proof.
  induction templates as [|[name' [t|]] rest IH]; intros w Hnot; simpl; auto.
  - rewrite fmap_cons in Hnot. apply not_elem_of_cons in Hnot as [Hne Hrest].
    unfold bind, async_render, emit, ret. simpl.
    destruct (env t) as [v|ex]; simpl.
    + rewrite IH by done. simpl. by apply getattr_setattr_ne.
    + unfold bind, get_self. simpl. by destruct (is_undefined_error ex).
  - rewrite fmap_cons in Hnot. apply not_elem_of_cons in Hnot as [_ Hrest].
    by apply IH.
Qed.

Lemma render_properties_attributes env templates state :
  forall w,
    _attributes (sensor (render_properties env templates state w).2)
    = _attributes (sensor w).
Proof.
  induction templates as [|[name' [t|]] rest IH]; intros w; simpl; auto.
  unfold bind, async_render, emit, ret. simpl.
  destruct (env t) as [v|ex]; simpl.
  - rewrite IH. simpl. apply setattr_attributes.
  - unfold bind, get_self. simpl. by destruct (is_undefined_error ex).
Qed.

(** The loop stops at the first entry whose template fails: the entries
    after it have no part in the result. *)
Lemma render_properties_stops env before name t ex after state :
  forall w,
    Forall (renders_ok env) before ->
    env t = inr ex ->
    render_properties env (app before ((name, Some t) :: after)) state w =
      (state,
       add_events [Rendered t; failure_record name (sensor w) ex]
         (render_properties env before state w).2).
Proof.
  induction before as [|[name' [t'|]] rest IH]; intros w Hok Hex.
  - simpl. unfold bind, async_render, emit, ret, get_self. simpl.
    rewrite Hex. simpl. unfold failure_record, _LOGGER_warning, _LOGGER_error.
    destruct (is_undefined_error ex); unfold emit; simpl;
      by rewrite !with_effect_add_events, add_events_app.
  - apply Forall_cons in Hok as [[v Hv] Hok]. simpl in Hv.
    simpl. unfold bind, async_render, emit, ret, modify_self. simpl.
    rewrite Hv. simpl. rewrite IH by done. simpl.
    unfold failure_record. by rewrite setattr_name.
  - apply Forall_cons in Hok as [_ Hok]. simpl. by apply IH.
Qed.

Lemma getattr_setattr_eq name v s :
  name ∈ ["_icon"; "_entity_picture"; "_available"] ->
  getattr name (setattr name (assigned_value name v) s)
  = Some (assigned_value name v).
Proof.
  intros Hname.
  repeat (apply elem_of_cons in Hname as [->|Hname]; [reflexivity|]).
  by apply elem_of_nil in Hname.
Qed.

(** Entries that render are assigned, each to its own field. *)
Lemma render_properties_assigns env templates state name t v :
  forall w,
    NoDup templates.*1 ->
    Forall (renders_ok env) templates ->
    (name, Some t) ∈ templates ->
    env t = inl v ->
    name ∈ ["_icon"; "_entity_picture"; "_available"] ->
    getattr name (sensor (render_properties env templates state w).2)
    = Some (assigned_value name v).
Proof.
  induction templates as [|[name' [t'|]] rest IH];
    intros w Hnodup Hok Hin Hv Hname.
  - by apply elem_of_nil in Hin.
  - rewrite fmap_cons in Hnodup. apply NoDup_cons in Hnodup as [Hfresh Hnodup].
    apply Forall_cons in Hok as [[v' Hv'] Hok]. simpl in Hv'.
    simpl. unfold bind, async_render, emit, ret, modify_self. simpl.
    rewrite Hv'. simpl.
    apply elem_of_cons in Hin as [Heq|Hin].
    + injection Heq as -> ->. rewrite render_properties_getattr by done.
      simpl. assert (v' = v) as -> by congruence.
      by apply getattr_setattr_eq.
    + by apply IH.
  - rewrite fmap_cons in Hnodup. apply NoDup_cons in Hnodup as [_ Hnodup].
    apply Forall_cons in Hok as [_ Hok].
    apply elem_of_cons in Hin as [Heq|Hin]; [discriminate|].
    simpl. by apply IH.
Qed.

Lemma property_templates_names self :
  (property_templates self).*1 = ["_icon"; "_entity_picture"; "_available"].
Proof. reflexivity. Qed.

Lemma attributes_phase_getattr env w name :
  getattr name (sensor (attributes_phase env w)) = getattr name (sensor w).
Proof.
  unfold attributes_phase. by destruct (_attribute_templates (sensor w)).
Qed.

Lemma before_properties_getattr env w name :
  getattr name (sensor (before_properties env w)) = getattr name (sensor w).
Proof. unfold before_properties. by rewrite attributes_phase_getattr. Qed.

Lemma attributes_phase_name env w :
  _name (sensor (attributes_phase env w)) = _name (sensor w).
Proof.
  unfold attributes_phase. by destruct (_attribute_templates (sensor w)).
Qed.

Lemma before_properties_events env w :
  trace (before_properties env w)
  = app (trace w) (steps_1_2_events env (sensor w)).
Proof.
  unfold before_properties, attributes_phase, steps_1_2_events. simpl.
  destruct (_attribute_templates (sensor w)); simpl.
  - by rewrite <- app_assoc.
  - by rewrite app_nil_r.
Qed.

(** Entries that render leave one rendering each in the trace, in their
    order. *)
Lemma render_properties_events env templates state :
  forall w,
    Forall (renders_ok env) templates ->
    trace (render_properties env templates state w).2
    = app (trace w) (rendered_in_order templates).
Proof.
  unfold rendered_in_order.
  induction templates as [|[name [t|]] rest IH]; intros w Hok.
  - simpl. by rewrite app_nil_r.
  - apply Forall_cons in Hok as [[v Hv] Hok]. simpl in Hv.
    simpl. unfold bind, async_render, emit, ret, modify_self. simpl.
    rewrite Hv. simpl. rewrite IH by done. simpl.
    by rewrite <- app_assoc.
  - apply Forall_cons in Hok as [_ Hok]. simpl. by apply IH.
Qed.

Lemma pass_events_from_trace {A} (m : M A) w evs :
  trace (m w).2 = app (trace w) evs -> pass_events m w = evs.
Proof.
  intros Htrace. unfold pass_events. rewrite Htrace.
  by rewrite drop_app_length.
Qed.

(** C2, as amended: in every pass the candidate returned is the one of
    step 1.  In a pass that is not ended by an undefined reference in the
    value template, and in which the templates of icon, entity picture and
    availability all render, they are rendered in that order, after the
    value and the attributes, and each is assigned to its field.  When the
    first failure among them is at [name]: in every pass the fields after
    [name] keep the value they had before the pass; and in a pass that is
    not ended by an undefined reference in the value template the
    templates before [name] are rendered in order and assigned, the
    template of [name] is rendered, its failure is recorded, and the pass
    ends there: nothing after [name] is rendered. *)
Theorem properties_short_circuit env w :
  let w' := (_async_render env w).2 in
  (_async_render env w).1 = value_candidate env (sensor w)
  /\ (aborts_early env (sensor w) = false ->
      Forall (renders_ok env) (property_templates (sensor w)) ->
      pass_events (_async_render env) w
      = app (steps_1_2_events env (sensor w))
          (rendered_in_order (property_templates (sensor w)))
      /\ forall name t v,
           (name, Some t) ∈ property_templates (sensor w) -> env t = inl v ->
           getattr name (sensor w') = Some (assigned_value name v))
  /\ (forall before name t ex after,
        property_templates (sensor w) = app before ((name, Some t) :: after) ->
        Forall (renders_ok env) before ->
        env t = inr ex ->
        (forall name' o, (name', o) ∈ after ->
           getattr name' (sensor w') = getattr name' (sensor w))
        /\ (aborts_early env (sensor w) = false ->
              pass_events (_async_render env) w
              = app (steps_1_2_events env (sensor w))
                  (app (rendered_in_order before)
                     [Rendered t; failure_record name (sensor w) ex])
              /\ forall name0 t0 v0,
                   (name0, Some t0) ∈ before -> env t0 = inl v0 ->
                   getattr name0 (sensor w') = Some (assigned_value name0 v0))).
Proof.
  intros w'. split; [apply _async_render_returns|]. split.
  - intros Hgo Hok. split.
    + apply pass_events_from_trace. rewrite _async_render_run by done.
      rewrite render_properties_events by done.
      by rewrite before_properties_events, <- app_assoc.
    + intros name t v Hin Hv. unfold w'. rewrite _async_render_run by done.
      apply render_properties_assigns with t; try done.
      * rewrite property_templates_names.
        apply (bool_decide_unpack _). by vm_compute.
      * rewrite <- (property_templates_names (sensor w)).
        apply list_elem_of_fmap. by exists (name, Some t).
  - intros before name t ex after Hsplit Hok Hex.
    assert (Hnames : NoDup (app before ((name, Some t) :: after)).*1).
    { rewrite <- Hsplit, property_templates_names.
      apply (bool_decide_unpack _). by vm_compute. }
    rewrite fmap_app, fmap_cons in Hnames.
    apply NoDup_app in Hnames as (Hnd_before & Hdisj & Hnd_after).
    assert (Hrun : aborts_early env (sensor w) = false ->
              w' = add_events [Rendered t; failure_record name (sensor w) ex]
                     (render_properties env before
                        (value_candidate env (sensor w))
                        (before_properties env w)).2).
    { intros Hgo. unfold w'. rewrite _async_render_run by done.
      rewrite Hsplit, (render_properties_stops env before name t ex) by done.
      simpl. unfold failure_record, before_properties.
      by rewrite attributes_phase_name. }
    split.
    + intros name' o Hin.
      destruct (aborts_early env (sensor w)) eqn:Habort.
      * unfold aborts_early in Habort.
        destruct (env (_template (sensor w))) as [v|ex0] eqn:Hex0; [done|].
        unfold w'. by rewrite (_async_render_undefined env w ex0).
      * rewrite Hrun by done. simpl.
        rewrite render_properties_getattr; [apply before_properties_getattr|].
        intros Hbefore. apply (Hdisj name' Hbefore).
        apply elem_of_cons. right.
        apply list_elem_of_fmap. by exists (name', o).
    + intros Hgo. split.
      * apply pass_events_from_trace. fold w'. rewrite Hrun by done.
        cbn [add_events trace].
        rewrite render_properties_events by done.
        by rewrite before_properties_events, <- !app_assoc.
      * intros name0 t0 v0 Hin Hv0. rewrite Hrun by done. simpl.
        apply render_properties_assigns with t0; try done.
        assert (Hsub : name0 ∈ (property_templates (sensor w)).*1).
        { rewrite Hsplit, fmap_app. apply elem_of_app. left.
          apply list_elem_of_fmap. by exists (name0, Some t0). }
        by rewrite property_templates_names in Hsub.
Qed.

Lemma properties_short_circuit_witness :
  let env := Samples.env_value_broken in
  let w := Samples.seen_open in
  let w' := (_async_render env w).2 in
  (_async_render env w).1 = value_candidate env (sensor w)
  /\ (forall name' o,
        (name', o) ∈ [("_available", Some Samples.door_availability)] ->
        getattr name' (sensor w') = getattr name' (sensor w))
  /\ pass_events (_async_render env) w
     = app (steps_1_2_events env (sensor w))
         (app (rendered_in_order [("_icon", Some Samples.door_icon)])
            [Rendered Samples.door_picture;
             failure_record "_entity_picture" (sensor w)
               Samples.undefined_error]).
Proof.
  intros env w w'.
  destruct (properties_short_circuit env w) as (Hret & _ & Hfail).
  destruct (Hfail [("_icon", Some Samples.door_icon)]
              "_entity_picture" Samples.door_picture Samples.undefined_error
              [("_available", Some Samples.door_availability)])
    as (Hkeep & Hrun).
  - reflexivity.
  - repeat constructor. by exists "mdi:door".
  - reflexivity.
  - destruct (Hrun eq_refl) as (Hevents & _).
    split; [exact Hret|]. split; [exact Hkeep|exact Hevents].
Defined.

(** C2, the counterexample: the icon, entity picture and availability
    templates of the door sensor all render, but its value template meets
    an undefined reference: the pass ends after the warning and none of the
    three is rendered. *)
Lemma step_3_skipped_after_undefined_value :
  ~ step_3_runs_in_every_pass Samples.env_starting Samples.seen_open.
Proof.
  intros Hclaim.
  destruct Hclaim as [evs Hevs].
  { repeat constructor; simpl; eexists; reflexivity. }
  rewrite (pass_events_undefined Samples.env_starting Samples.seen_open
             Samples.undefined_error eq_refl eq_refl) in Hevs.
  assert (Hthree : List.length
                     (rendered_in_order
                        (property_templates (sensor Samples.seen_open)))
                   = 3%nat) by (vm_compute; reflexivity).
  apply (f_equal List.length) in Hevs.
  rewrite length_app, Hthree in Hevs. simpl in Hevs. lia.
Qed.

(** ** Step 2: the attributes *)

Lemma rendered_attributes_cons env key t rest attrs :
  rendered_attributes env ((key, t) :: rest) attrs =
    rendered_attributes env rest
      (match env t with inl v => <[key := v]> attrs | inr _ => attrs end).
Proof. reflexivity. Qed.

(** With distinct keys, the rendered map holds the attributes that render,
    and under the other keys what was there before. *)
Lemma rendered_attributes_lookup env items :
  forall (attrs : gmap string string) key v,
    NoDup items.*1 ->
    rendered_attributes env items attrs !! key = Some v <->
      (exists t, (key, t) ∈ items /\ env t = inl v)
      \/ (attrs !! key = Some v
          /\ ~ exists t v', (key, t) ∈ items /\ env t = inl v').
Proof.
  induction items as [|[k0 t0] rest IH]; intros attrs key v Hnodup.
  - simpl. split.
    + intros Hlook. right. split; [done|].
      intros (t & v' & Hin & _). by apply elem_of_nil in Hin.
    + intros [(t & Hin & _)|[Hlook _]]; [by apply elem_of_nil in Hin|done].
  - rewrite fmap_cons in Hnodup. apply NoDup_cons in Hnodup as [Hfresh Hnodup].
    simpl in Hfresh.
    assert (Hrest : forall t, (k0, t) ∈ rest -> False).
    { intros t Hin. apply Hfresh. apply list_elem_of_fmap. by exists (k0, t). }
    rewrite rendered_attributes_cons, IH by done.
    destruct (decide (key = k0)) as [->|Hne].
    + destruct (env t0) as [v0|e0] eqn:Ht0.
      * rewrite lookup_insert_eq. split.
        -- intros [(t & Hin & _)|[Heq _]]; [by destruct (Hrest t)|].
           left. exists t0. split; [apply list_elem_of_here|congruence].
        -- intros [(t & Hin & Hv)|[_ Hno]].
           ++ apply elem_of_cons in Hin as [Heq|Hin]; [|by destruct (Hrest t)].
              right. split; [congruence|].
              intros (t' & v' & Hin' & _). by destruct (Hrest t').
           ++ destruct Hno. exists t0, v0. split; [apply list_elem_of_here|done].
      * split.
        -- intros [(t & Hin & _)|[Hlook _]]; [by destruct (Hrest t)|].
           right. split; [done|]. intros (t & v' & Hin & Hv).
           apply elem_of_cons in Hin as [Heq|Hin]; [congruence|by destruct (Hrest t)].
        -- intros [(t & Hin & Hv)|[Hlook _]].
           ++ apply elem_of_cons in Hin as [Heq|Hin]; [congruence|by destruct (Hrest t)].
           ++ right. split; [done|]. intros (t & v' & Hin & _).
              by destruct (Hrest t).
    + assert (Hattrs : (match env t0 with
                        | inl v0 => <[k0 := v0]> attrs
                        | inr _ => attrs
                        end) !! key = attrs !! key).
      { destruct (env t0); [by rewrite lookup_insert_ne|done]. }
      rewrite Hattrs. split.
      * intros [(t & Hin & Hv)|[Hlook Hno]].
        -- left. exists t. split; [by apply list_elem_of_further|done].
        -- right. split; [done|]. intros (t & v' & Hin & Hv).
           apply elem_of_cons in Hin as [Heq|Hin]; [congruence|].
           apply Hno. by exists t, v'.
      * intros [(t & Hin & Hv)|[Hlook Hno]].
        -- apply elem_of_cons in Hin as [Heq|Hin]; [congruence|].
           left. by exists t.
        -- right. split; [done|]. intros (t & v' & Hin & Hv).
           apply Hno. exists t, v'. split; [by apply list_elem_of_further|done].
Qed.

Lemma attribute_events_rendered env items key t :
  (key, t) ∈ items -> Rendered t ∈ attribute_events env items.
Proof.
  induction items as [|[k0 t0] rest IH]; intros Hin.
  - by apply elem_of_nil in Hin.
  - unfold attribute_events. simpl.
    apply elem_of_cons in Hin as [Heq|Hin].
    + injection Heq as -> ->. apply list_elem_of_here.
    + apply list_elem_of_further, elem_of_app. right. by apply IH.
Qed.

Lemma attribute_events_logged env items key t err :
  (key, t) ∈ items -> env t = inr err ->
  LogError "Error rendering attribute %s: %s" [ArgStr key; ArgExc err]
    ∈ attribute_events env items.
Proof.
  induction items as [|[k0 t0] rest IH]; intros Hin Herr.
  - by apply elem_of_nil in Hin.
  - unfold attribute_events. simpl.
    apply elem_of_cons in Hin as [Heq|Hin].
    + injection Heq as -> ->. rewrite Herr.
      apply list_elem_of_further, list_elem_of_here.
    + apply list_elem_of_further, elem_of_app. right. by apply IH.
Qed.

Lemma _async_render_attributes env w items :
  aborts_early env (sensor w) = false ->
  _attribute_templates (sensor w) = Some items ->
  _attributes (sensor (_async_render env w).2) = rendered_attributes env items ∅.
Proof.
  intros Hgo Hitems. rewrite _async_render_run by done.
  rewrite render_properties_attributes.
  unfold before_properties, attributes_phase. simpl. by rewrite Hitems.
Qed.

Lemma pass_events_continues env w items :
  aborts_early env (sensor w) = false ->
  _attribute_templates (sensor w) = Some items ->
  exists evs,
    pass_events (_async_render env) w =
      app (value_events env (sensor w)) (app (attribute_events env items) evs).
Proof.
  intros Hgo Hitems.
  destruct (ro_trace _ _ (rendering_render_properties env
              (property_templates (sensor w)) (value_candidate env (sensor w))
              (before_properties env w))) as (evs & Hevs & _).
  exists evs. unfold pass_events. rewrite _async_render_run by done.
  rewrite Hevs. unfold before_properties, attributes_phase. simpl.
  rewrite Hitems. simpl. rewrite <- !app_assoc. by rewrite drop_app_length.
Qed.

(** C7: in a pass that reaches the attribute loop, every attribute template
    is rendered; the attribute map of the sensor becomes exactly the
    attributes that rendered in this pass, so that nothing of an earlier
    pass survives; a template that fails is logged as an error and its key
    is absent from the map.  The value template may have failed in the same
    pass: only an undefined reference, which ends the pass, is excluded. *)
Theorem attributes_replaced_wholesale env w items :
  aborts_early env (sensor w) = false ->
  _attribute_templates (sensor w) = Some items ->
  NoDup items.*1 ->
  let w' := (_async_render env w).2 in
  (forall key t, (key, t) ∈ items ->
     Rendered t ∈ pass_events (_async_render env) w)
  /\ (forall key v,
        _attributes (sensor w') !! key = Some v <->
        exists t, (key, t) ∈ items /\ env t = inl v)
  /\ (forall key t err, (key, t) ∈ items -> env t = inr err ->
        LogError "Error rendering attribute %s: %s" [ArgStr key; ArgExc err]
          ∈ pass_events (_async_render env) w
        /\ _attributes (sensor w') !! key = None).
Proof.
  intros Hgo Hitems Hnodup w'.
  destruct (pass_events_continues env w items Hgo Hitems) as [evs Hevs].
  assert (Hlookup : forall key v,
             _attributes (sensor w') !! key = Some v <->
             exists t, (key, t) ∈ items /\ env t = inl v).
  { intros key v. unfold w'.
    rewrite (_async_render_attributes env w items) by done.
    rewrite rendered_attributes_lookup by done.
    rewrite lookup_empty.
    split; [intros [Hin|[Hnone _]]; [exact Hin|discriminate] | intros Hin; by left]. }
  split; [|split; [exact Hlookup|]].
  - intros key t Hin. rewrite Hevs.
    apply elem_of_app. right. apply elem_of_app. left.
    by apply attribute_events_rendered with key.
  - intros key t err Hin Herr. split.
    + rewrite Hevs. apply elem_of_app. right. apply elem_of_app. left.
      by apply attribute_events_logged with t.
    + destruct (_attributes (sensor w') !! key) as [v|] eqn:Hv; [|done].
      apply Hlookup in Hv as (t' & Hin' & Hv').
      assert (t' = t) as ->; [|congruence].
      clear -Hin Hin' Hnodup.
      induction items as [|[k0 t0] rest IH]; [by apply elem_of_nil in Hin|].
      rewrite fmap_cons in Hnodup. apply NoDup_cons in Hnodup as [Hfresh Hnodup].
      assert (Hrest : forall t1, (key, t1) ∈ rest -> key ∈ rest.*1).
      { intros t1 H1. apply list_elem_of_fmap. by exists (key, t1). }
      apply elem_of_cons in Hin as [Heq|Hin];
        apply elem_of_cons in Hin' as [Heq'|Hin'].
      * congruence.
      * injection Heq as -> ->. destruct Hfresh. by apply (Hrest t').
      * injection Heq' as -> ->. destruct Hfresh. by apply (Hrest t).
      * by apply IH.
Qed.

Lemma attributes_replaced_wholesale_witness :
  let env := Samples.env_value_broken in
  let w := Samples.seen_open in
  let w' := (_async_render env w).2 in
  _attributes (sensor w) = {[ "battery" := "87"; "room" := "hall" ]}
  /\ value_candidate env (sensor w) = None
  /\ _attributes (sensor w') !! "battery" = Some "85"
  /\ _attributes (sensor w') !! "room" = None.
Proof.
  intros env w w'.
  destruct (attributes_replaced_wholesale env w
              [("battery", Samples.door_battery); ("room", Samples.door_room)])
    as (_ & Hlookup & Hfailed).
  - reflexivity.
  - reflexivity.
  - apply (bool_decide_unpack _). by vm_compute.
  - split; [by vm_compute|]. split; [reflexivity|]. split.
    + apply Hlookup. exists Samples.door_battery.
      split; [apply list_elem_of_here|reflexivity].
    + apply (Hfailed "room" Samples.door_room Samples.syntax_error);
        [apply list_elem_of_further, list_elem_of_here|reflexivity].
Defined.

(** ** [async_check_state]: the three outcomes *)

Lemma rendering_publishes_nothing {A} (m : M A) w :
  rendering m -> publishes_nothing (pass_events m w).
Proof.
  intros Hm snap Hin.
  destruct (ro_trace _ _ (Hm w)) as (evs & Hevs & Hquiet).
  unfold pass_events in Hin. rewrite Hevs, drop_app_length in Hin.
  rewrite Forall_forall in Hquiet. exact (Hquiet _ Hin).
Qed.

Lemma settings_delays s s' :
  settings s' = settings s ->
  _delay_on s' = _delay_on s /\ _delay_off s' = _delay_off s
  /\ _entities s' = _entities s.
Proof. unfold settings. intros Heq. by simplify_eq. Qed.

Lemma period_for_after_render env w st :
  period_for (sensor (_async_render env w).2) st = period_for (sensor w) st.
Proof.
  destruct (settings_delays _ _ (ro_settings _ _ (rendering__async_render env w)))
    as (Hon & Hoff & _).
  unfold period_for. by rewrite Hon, Hoff.
Qed.

Lemma entities_after_render env w :
  _entities (sensor (_async_render env w).2) = _entities (sensor w).
Proof.
  by destruct (settings_delays _ _
                 (ro_settings _ _ (rendering__async_render env w)))
    as (_ & _ & ->).
Qed.

Lemma state_after_render env w :
  _state (sensor (_async_render env w).2) = _state (sensor w).
Proof. apply (ro_state _ _ (rendering__async_render env w)). Qed.

Lemma without_delay_period self st :
  without_delay self st = negb (truthy (period_for self st)).
Proof.
  unfold without_delay, period_for.
  destruct st; simpl; [by rewrite orb_false_r|done].
Qed.

(** Past line 318 the period of line 322 is a duration that is not zero. *)
Lemma delayed_period_is_set self st :
  without_delay self st = false ->
  exists p, period_for self st = Some p /\ p <> 0.
Proof.
  rewrite without_delay_period. unfold truthy.
  destruct (period_for self st) as [p|]; [|done].
  intros Hp. exists p. split; [done|].
  apply negb_false_iff, negb_true_iff in Hp. by apply Z.eqb_neq in Hp.
Qed.

(** Line 308: the candidate is unknown or is the committed value. *)
Lemma async_check_state_ignores env w :
  (_async_render env w).1 = None
  \/ (_async_render env w).1 = _state (sensor w) ->
  async_check_state env w = (tt, (_async_render env w).2).
Proof.
  intros Hcand. unfold async_check_state, bind, get_self. simpl.
  destruct (_async_render env w).1 as [st|] eqn:Hst; [|done].
  destruct Hcand as [Hnone|Hsame]; [done|].
  unfold state, is_on. rewrite state_after_render, <- Hsame.
  by rewrite bool_decide_eq_true_2.
Qed.

(** Lines 318-320: a new value without delay. *)
Lemma async_check_state_commits env w st :
  (_async_render env w).1 = Some st ->
  _state (sensor w) <> Some st ->
  truthy (period_for (sensor w) st) = false ->
  async_check_state env w = set_state st (_async_render env w).2.
Proof.
  intros Hcand Hnew Hdelay. unfold async_check_state, bind, get_self. simpl.
  rewrite Hcand. unfold state, is_on. rewrite state_after_render.
  rewrite bool_decide_eq_false_2 by congruence.
  by rewrite without_delay_period, period_for_after_render, Hdelay.
Qed.

(** Lines 322-329: a new value with a delay. *)
Lemma async_check_state_delays env w st :
  (_async_render env w).1 = Some st ->
  _state (sensor w) <> Some st ->
  truthy (period_for (sensor w) st) = true ->
  exists p,
    period_for (sensor w) st = Some p /\ p <> 0
    /\ async_check_state env w =
         async_track_same_state p st (_entities (sensor w))
           (_async_render env w).2.
Proof.
  intros Hcand Hnew Hdelay.
  destruct (delayed_period_is_set (sensor w) st) as (p & Hp & Hp0).
  { by rewrite without_delay_period, Hdelay. }
  exists p. split; [done|]. split; [done|].
  unfold async_check_state, bind, get_self. simpl.
  rewrite Hcand. unfold state, is_on. rewrite state_after_render.
  rewrite bool_decide_eq_false_2 by congruence.
  rewrite without_delay_period, period_for_after_render, Hdelay. simpl.
  by rewrite Hp, entities_after_render.
Qed.

Lemma pass_events_same_trace {A B} (m : M A) (m' : M B) w :
  trace (m w).2 = trace (m' w).2 -> pass_events m w = pass_events m' w.
Proof. unfold pass_events. by intros ->. Qed.

Lemma pass_events_ignored env w :
  (_async_render env w).1 = None
  \/ (_async_render env w).1 = _state (sensor w) ->
  pass_events (async_check_state env) w = pass_events (_async_render env) w.
Proof.
  intros Hcand. apply pass_events_same_trace.
  by rewrite async_check_state_ignores.
Qed.

Lemma pass_events_delayed env w st :
  (_async_render env w).1 = Some st ->
  _state (sensor w) <> Some st ->
  truthy (period_for (sensor w) st) = true ->
  pass_events (async_check_state env) w = pass_events (_async_render env) w.
Proof.
  intros Hcand Hnew Hdelay. apply pass_events_same_trace.
  destruct (async_check_state_delays env w st) as (p & _ & _ & ->); done.
Qed.

Lemma pass_events_committed env w st :
  (_async_render env w).1 = Some st ->
  _state (sensor w) <> Some st ->
  truthy (period_for (sensor w) st) = false ->
  pass_events (async_check_state env) w =
    app (pass_events (_async_render env) w)
      [Published (snapshot_of (sensor (async_check_state env w).2))].
Proof.
  intros Hcand Hnew Hdelay. unfold pass_events at 1.
  rewrite (async_check_state_commits env w st) by done.
  unfold set_state, bind, modify_self, async_schedule_update_ha_state,
    get_self, emit. simpl.
  rewrite (trace_pass_events (_async_render env) w)
    by apply rendering__async_render.
  rewrite <- app_assoc. by rewrite drop_app_length.
Qed.

(** The three outcomes cover every pass. *)
Lemma async_check_state_cases env w :
  ((_async_render env w).1 = None
   \/ (_async_render env w).1 = _state (sensor w))
  \/ exists st,
       (_async_render env w).1 = Some st /\ _state (sensor w) <> Some st.
Proof.
  destruct (_async_render env w).1 as [st|]; [|by left; left].
  destruct (decide (_state (sensor w) = Some st)) as [Heq|Hne].
  - left. by right.
  - right. by exists st.
Qed.

Lemma set_state_settings st w :
  settings (sensor (set_state st w).2) = settings (sensor w).
Proof. reflexivity. Qed.

Lemma async_check_state_settings env w :
  settings (sensor (async_check_state env w).2) = settings (sensor w).
Proof.
  pose proof (ro_settings _ _ (rendering__async_render env w)) as Hrender.
  destruct (async_check_state_cases env w) as [Hignore|(st & Hcand & Hnew)].
  - by rewrite async_check_state_ignores.
  - destruct (truthy (period_for (sensor w) st)) eqn:Hdelay.
    + destruct (async_check_state_delays env w st) as (p & _ & _ & ->); done.
    + rewrite (async_check_state_commits env w st) by done.
      by rewrite set_state_settings.
Qed.

Lemma period_for_settings s s' st :
  settings s' = settings s -> period_for s' st = period_for s st.
Proof.
  intros Heq. destruct (settings_delays _ _ Heq) as (Hon & Hoff & _).
  unfold period_for. by rewrite Hon, Hoff.
Qed.

Lemma silent_when_ignored env w :
  (_async_render env w).1 = None
  \/ (_async_render env w).1 = _state (sensor w) ->
  publishes_nothing (pass_events (async_check_state env) w)
  /\ _state (sensor (async_check_state env w).2) = _state (sensor w)
  /\ timers (async_check_state env w).2 = timers w.
Proof.
  intros Hcand. split; [|split].
  - rewrite pass_events_ignored by done.
    apply rendering_publishes_nothing, rendering__async_render.
  - rewrite async_check_state_ignores by done. apply state_after_render.
  - rewrite async_check_state_ignores by done.
    apply (ro_timers _ _ (rendering__async_render env w)).
Qed.

Lemma silent_when_delayed env w st :
  (_async_render env w).1 = Some st ->
  _state (sensor w) <> Some st ->
  truthy (period_for (sensor w) st) = true ->
  publishes_nothing (pass_events (async_check_state env) w)
  /\ _state (sensor (async_check_state env w).2) = _state (sensor w)
  /\ exists p,
       period_for (sensor w) st = Some p
       /\ timers (async_check_state env w).2 =
            [mkTimer p (now w + p) (_entities (sensor w)) st].
Proof.
  intros Hcand Hnew Hdelay. split; [|split].
  - rewrite (pass_events_delayed env w st) by done.
    apply rendering_publishes_nothing, rendering__async_render.
  - destruct (async_check_state_delays env w st) as (p & _ & _ & ->); try done.
    apply state_after_render.
  - destruct (async_check_state_delays env w st) as (p & Hp & _ & ->); try done.
    exists p. split; [done|]. simpl.
    by rewrite (ro_now _ _ (rendering__async_render env w)).
Qed.

Lemma committed_at_once env w st :
  (_async_render env w).1 = Some st ->
  _state (sensor w) <> Some st ->
  truthy (period_for (sensor w) st) = false ->
  _state (sensor (async_check_state env w).2) = Some st
  /\ timers (async_check_state env w).2 = timers w.
Proof.
  intros Hcand Hnew Hdelay.
  rewrite (async_check_state_commits env w st) by done. simpl.
  split; [done|]. apply (ro_timers _ _ (rendering__async_render env w)).
Qed.

(** The pass that follows a pass with the same candidate writes no state:
    either the first one committed the value, or both wait for the same
    delay. *)
Lemma second_pass_silent env1 env2 w :
  let w1 := (async_check_state env1 w).2 in
  (_async_render env2 w1).1 = (_async_render env1 w).1 ->
  publishes_nothing (pass_events (async_check_state env2) w1)
  /\ _state (sensor (async_check_state env2 w1).2) = _state (sensor w1).
Proof.
  intros w1 Hsame.
  assert (Hperiod : forall st, period_for (sensor w1) st = period_for (sensor w) st).
  { intros st. apply period_for_settings, async_check_state_settings. }
  destruct (async_check_state_cases env1 w) as [Hignore|(st & Hcand & Hnew)].
  - destruct (silent_when_ignored env1 w Hignore) as (_ & Hstate & _).
    fold w1 in Hstate.
    destruct (silent_when_ignored env2 w1) as (Hquiet & Hkeep & _).
    { rewrite Hsame, Hstate. exact Hignore. }
    by split.
  - destruct (truthy (period_for (sensor w) st)) eqn:Hdelay.
    + destruct (silent_when_delayed env1 w st) as (_ & Hstate & _); try done.
      fold w1 in Hstate.
      destruct (silent_when_delayed env2 w1 st) as (Hquiet & Hkeep & _).
      * by rewrite Hsame.
      * by rewrite Hstate.
      * by rewrite Hperiod.
      * by split.
    + destruct (committed_at_once env1 w st) as (Hstate & _); try done.
      fold w1 in Hstate.
      destruct (silent_when_ignored env2 w1) as (Hquiet & Hkeep & _).
      { right. by rewrite Hsame, Hstate. }
      by split.
Qed.

(** ** C3: no state write for an unknown or unchanged value *)

(** C3: a pass whose candidate is unknown, or is the committed value,
    hands no state to the host and leaves the committed value (and the
    timers) as they were; and of two passes in a row with the same
    candidate, the second hands no state to the host and leaves the
    committed value as the first left it. *)
Theorem unknown_or_unchanged_is_silent :
  (forall env w,
      (_async_render env w).1 = None
      \/ (_async_render env w).1 = _state (sensor w) ->
      publishes_nothing (pass_events (async_check_state env) w)
      /\ _state (sensor (async_check_state env w).2) = _state (sensor w)
      /\ timers (async_check_state env w).2 = timers w)
  /\ (forall env1 env2 w,
        let w1 := (async_check_state env1 w).2 in
        (_async_render env2 w1).1 = (_async_render env1 w).1 ->
        publishes_nothing (pass_events (async_check_state env2) w1)
        /\ _state (sensor (async_check_state env2 w1).2) = _state (sensor w1)).
Proof.
  split.
  - apply silent_when_ignored.
  - apply second_pass_silent.
Qed.

Lemma unknown_or_unchanged_is_silent_witness :
  let w1 := (async_check_state Samples.env_closed Samples.fresh).2 in
  _state (sensor w1) = Some false
  /\ publishes_nothing (pass_events (async_check_state Samples.env_closed) w1)
  /\ _state (sensor (async_check_state Samples.env_closed w1).2) = Some false
  /\ publishes_nothing
       (pass_events (async_check_state Samples.env_starting) w1).
Proof.
  intros w1.
  destruct unknown_or_unchanged_is_silent as [Hsilent Hsecond].
  destruct (Hsecond Samples.env_closed Samples.env_closed Samples.fresh eq_refl)
    as [Hquiet Hkeep].
  destruct (Hsilent Samples.env_starting w1 (or_introl eq_refl))
    as (Hquiet' & _ & _).
  split; [reflexivity|]. split; [exact Hquiet|]. split; [exact Hkeep|].
  exact Hquiet'.
Defined.

(** ** C6: a new value is committed at once or after its delay *)

(** C6: when a pass returns a value that differs from the committed one,
    then, if the delay of its direction ([_delay_on] for true,
    [_delay_off] for false) is unset or zero, the value is committed in
    that pass and the snapshot of the sensor, with the new value, is handed
    to the host; otherwise nothing is committed and a timer for exactly
    that delay, due at [now + delay], is started for the value. *)
Theorem new_value_commits_or_delays env w st :
  (_async_render env w).1 = Some st ->
  _state (sensor w) <> Some st ->
  let w' := (async_check_state env w).2 in
  let delay := period_for (sensor w) st in
  (truthy delay = false ->
     _state (sensor w') = Some st
     /\ pass_events (async_check_state env) w =
          app (pass_events (_async_render env) w)
            [Published (snapshot_of (sensor w'))]
     /\ snap_is_on (snapshot_of (sensor w')) = Some st
     /\ timers w' = timers w)
  /\ (truthy delay = true ->
        exists p,
          delay = Some p
          /\ timers w' = [mkTimer p (now w + p) (_entities (sensor w)) st]
          /\ _state (sensor w') = _state (sensor w)
          /\ publishes_nothing (pass_events (async_check_state env) w)).
Proof.
  intros Hcand Hnew w' delay. split; intros Hdelay.
  - destruct (committed_at_once env w st Hcand Hnew Hdelay) as [Hstate Htimers].
    split; [exact Hstate|]. split; [by apply pass_events_committed with st|].
    split; [exact Hstate|exact Htimers].
  - destruct (silent_when_delayed env w st Hcand Hnew Hdelay)
      as (Hquiet & Hstate & p & Hp & Htimers).
    exists p. by repeat split.
Qed.

Lemma new_value_commits_or_delays_witness :
  let w := (async_check_state Samples.env_closed Samples.fresh).2 in
  let w' := (async_check_state Samples.env_open w).2 in
  timers w' = [mkTimer 3 3 (_entities Samples.door) true]
  /\ _state (sensor w') = Some false
  /\ _state (sensor w) = Some false
  /\ timers w = [].
Proof.
  intros w w'.
  destruct (new_value_commits_or_delays Samples.env_open w true eq_refl)
    as [_ Hdelayed]; [discriminate|].
  destruct (Hdelayed eq_refl) as (p & Hp & Htimers & Hstate & _).
  injection Hp as <-.
  destruct (new_value_commits_or_delays Samples.env_closed Samples.fresh false
              eq_refl) as [Hnow _]; [discriminate|].
  destruct (Hnow eq_refl) as (Hcommitted & _ & _ & Hnotimer).
  split; [exact Htimers|]. split; [exact Hstate|].
  split; [exact Hcommitted|exact Hnotimer].
Defined.

(** ** C10: a forced update is an ordinary pass *)

(** C10: [async_update] does exactly what the listener of change events
    does, for every world and environment; so a forced update hands no
    state to the host when the candidate is unknown or is the committed
    value, and a new value whose direction has a delay is not committed by
    it but waits for that delay. *)
Theorem forced_update_is_ordinary_pass :
  (forall env w entity,
      async_update env w = template_bsensor_state_listener entity env w)
  /\ (forall env w keys entity,
        state_listeners w = [keys] -> entity ∈ keys ->
        deliver (ForcedUpdate env) w = deliver (StateChanged entity env) w)
  /\ (forall env w,
        (_async_render env w).1 = None
        \/ (_async_render env w).1 = _state (sensor w) ->
        publishes_nothing (pass_events (async_update env) w)
        /\ _state (sensor (async_update env w).2) = _state (sensor w))
  /\ (forall env w st,
        (_async_render env w).1 = Some st ->
        _state (sensor w) <> Some st ->
        truthy (period_for (sensor w) st) = true ->
        publishes_nothing (pass_events (async_update env) w)
        /\ _state (sensor (async_update env w).2) = _state (sensor w)
        /\ exists p,
             period_for (sensor w) st = Some p
             /\ timers (async_update env w).2 =
                  [mkTimer p (now w + p) (_entities (sensor w)) st]).
Proof.
  split; [reflexivity|]. split; [|split].
  - intros env w keys entity Hkeys Hin. simpl.
    unfold deliver_state_change. rewrite Hkeys. simpl.
    rewrite bool_decide_eq_true_2 by done.
    unfold bind, ret, template_bsensor_state_listener, async_update.
    by destruct (async_check_state env w) as [[] w'].
  - intros env w Hcand.
    destruct (silent_when_ignored env w Hcand) as (Hquiet & Hstate & _).
    by split.
  - intros env w st Hcand Hnew Hdelay.
    exact (silent_when_delayed env w st Hcand Hnew Hdelay).
Qed.

Lemma forced_update_is_ordinary_pass_witness :
  let w := (deliver (HomeassistantStart Samples.env_closed) Samples.fresh).2 in
  deliver (ForcedUpdate Samples.env_open) w
  = deliver (StateChanged "binary_sensor.door" Samples.env_open) w
  /\ _state (sensor (async_update Samples.env_open w).2) = Some false.
Proof.
  intros w.
  destruct forced_update_is_ordinary_pass as (_ & Hdeliver & _ & Hdelayed).
  split.
  - apply (Hdeliver Samples.env_open w
             ["binary_sensor.door"; "input_text.pic"; "input_text.room"]);
      [reflexivity|apply list_elem_of_here].
  - destruct (Hdelayed Samples.env_open w true eq_refl) as (_ & Hstate & _);
      [discriminate|reflexivity|exact Hstate].
Defined.

(** ** C5: a delayed commit and its guard *)

Lemma fire_timer_commits env tm w :
  value_candidate env (sensor w) = Some (timer_target tm) ->
  fire_timer env tm w = set_state (timer_target tm) (_async_render env w).2.
Proof.
  intros Hguard. unfold fire_timer, async_check_same_func, bind, ret. simpl.
  rewrite _async_render_returns, Hguard.
  by rewrite bool_decide_eq_true_2.
Qed.

Lemma fire_timer_abandons env tm w :
  value_candidate env (sensor w) <> Some (timer_target tm) ->
  fire_timer env tm w = (tt, (_async_render env w).2).
Proof.
  intros Hguard. unfold fire_timer, async_check_same_func, bind, ret. simpl.
  rewrite _async_render_returns.
  by rewrite bool_decide_eq_false_2.
Qed.

Lemma fire_timer_timers env tm w : timers (fire_timer env tm w).2 = timers w.
Proof.
  pose proof (ro_timers _ _ (rendering__async_render env w)) as Hrender.
  destruct (decide (value_candidate env (sensor w) = Some (timer_target tm))).
  - by rewrite fire_timer_commits.
  - by rewrite fire_timer_abandons.
Qed.


Lemma filter_due_single t tm :
  List.filter (is_due t) [tm] = (if is_due t tm then [tm] else [])
  /\ List.filter (fun tm0 => negb (is_due t tm0)) [tm]
     = (if is_due t tm then [] else [tm]).
Proof. simpl. by destruct (is_due t tm). Qed.

(** Before the deadline of the only timer, the clock just advances. *)
Lemma deliver_clock_early env w tm t :
  timers w = [tm] -> now w <= t < timer_deadline tm ->
  (deliver_clock t env w).2 = with_now t w.
Proof.
  intros Htimers [Hnow Hearly]. unfold deliver_clock.
  destruct (Z.ltb_spec t (now w)) as [Hlt|_]; [lia|].
  assert (Hdue : is_due t tm = false).
  { unfold is_due. by apply Z.leb_gt. }
  destruct (filter_due_single t tm) as [Hf1 Hf2]. rewrite Hdue in Hf1, Hf2.
  unfold with_timers. rewrite Htimers, Hf1, Hf2. simpl.
  destruct w. unfold with_now. simpl in *. by subst.
Qed.

(** At the deadline the only timer is discarded, then fired. *)
Lemma deliver_clock_due env w tm :
  timers w = [tm] -> now w <= timer_deadline tm ->
  (deliver_clock (timer_deadline tm) env w).2 =
    with_now (timer_deadline tm)
      (fire_timer env tm (with_timers (fun _ => []) w)).2.
Proof.
  intros Htimers Hnow. unfold deliver_clock.
  destruct (Z.ltb_spec (timer_deadline tm) (now w)) as [Hlt|_]; [lia|].
  assert (Hdue : is_due (timer_deadline tm) tm = true).
  { unfold is_due. by apply Z.leb_le. }
  destruct (filter_due_single (timer_deadline tm) tm) as [Hf1 Hf2].
  rewrite Hdue in Hf1, Hf2.
  unfold with_timers. rewrite Htimers, Hf1, Hf2. simpl.
  unfold bind, ret. reflexivity.
Qed.

(** Without a timer the clock just advances. *)
Lemma deliver_clock_idle env w t :
  timers w = [] -> now w <= t -> (deliver_clock t env w).2 = with_now t w.
Proof.
  intros Htimers Hnow. unfold deliver_clock.
  destruct (Z.ltb_spec t (now w)) as [Hlt|_]; [lia|].
  unfold with_timers. rewrite Htimers. simpl.
  destruct w. unfold with_now. simpl in *. by subst.
Qed.

Lemma pass_events_clock_due env w tm :
  timers w = [tm] -> now w <= timer_deadline tm ->
  let w1 := with_timers (fun _ => []) w in
  pass_events (deliver (ClockReaches (timer_deadline tm) env)) w =
    pass_events (fire_timer env tm) w1.
Proof.
  intros Htimers Hnow w1. unfold pass_events. simpl.
  by rewrite deliver_clock_due.
Qed.

(** C5: with one timer pending for [target], due at [deadline]: the clock
    reaching an earlier moment changes nothing but the time; at the
    deadline the timer is discarded, and the value is committed and handed
    to the host if and only if the value template, rendered again at that
    moment, yields [target]; if it does not, the committed value stays, no
    state is handed to the host, and later moments of the clock change
    nothing either: only a new event can start another attempt. *)
Theorem delayed_commit_waits_for_guard env w tm :
  timers w = [tm] ->
  now w <= timer_deadline tm ->
  let target := timer_target tm in
  let due := deliver (ClockReaches (timer_deadline tm) env) in
  let w' := (due w).2 in
  (forall t env0, now w <= t < timer_deadline tm ->
     (deliver (ClockReaches t env0) w).2 = with_now t w)
  /\ timers w' = []
  /\ (value_candidate env (sensor w) = Some target ->
        _state (sensor w') = Some target
        /\ exists evs, publishes_nothing evs
             /\ pass_events due w = app evs [Published (snapshot_of (sensor w'))])
  /\ (value_candidate env (sensor w) <> Some target ->
        _state (sensor w') = _state (sensor w)
        /\ publishes_nothing (pass_events due w))
  /\ (forall t env1, timer_deadline tm <= t ->
        (deliver (ClockReaches t env1) w').2 = with_now t w').
Proof.
  intros Htimers Hnow target due w'.
  set (w1 := with_timers (fun _ => []) w).
  assert (Hw' : w' = with_now (timer_deadline tm) (fire_timer env tm w1).2).
  { unfold w', due. simpl. by apply deliver_clock_due. }
  assert (Hnone : timers w' = []).
  { rewrite Hw'. simpl. by rewrite fire_timer_timers. }
  split; [|split; [exact Hnone|split; [|split]]].
  - intros t env0 Ht. simpl. by apply deliver_clock_early with tm.
  - intros Hguard.
    assert (Hfire : fire_timer env tm w1
                    = set_state target (_async_render env w1).2)
      by by apply fire_timer_commits.
    split; [by rewrite Hw', Hfire|].
    exists (pass_events (_async_render env) w1). split.
    + apply rendering_publishes_nothing, rendering__async_render.
    + unfold due. rewrite pass_events_clock_due by done. fold w1.
      unfold pass_events at 1. rewrite Hw', Hfire. simpl.
      rewrite (trace_pass_events (_async_render env) w1)
        by apply rendering__async_render.
      rewrite <- app_assoc. by rewrite drop_app_length.
  - intros Hguard.
    assert (Hfire : fire_timer env tm w1 = (tt, (_async_render env w1).2))
      by by apply fire_timer_abandons.
    split.
    + rewrite Hw', Hfire. simpl. apply (state_after_render env w1).
    + unfold due. rewrite pass_events_clock_due by done. fold w1.
      rewrite (pass_events_same_trace _ (_async_render env) w1)
        by by rewrite Hfire.
      apply rendering_publishes_nothing, rendering__async_render.
  - intros t env1 Ht. simpl. apply deliver_clock_idle; [exact Hnone|].
    by rewrite Hw'.
Qed.

Lemma delayed_commit_waits_for_guard_witness :
  let w := (async_check_state Samples.env_open Samples.fresh).2 in
  timers w = [mkTimer 3 3 (_entities Samples.door) true]
  /\ (deliver (ClockReaches 2 Samples.env_open) w).2 = with_now 2 w
  /\ _state (sensor (deliver (ClockReaches 3 Samples.env_open) w).2) = Some true
  /\ _state (sensor (deliver (ClockReaches 3 Samples.env_closed) w).2) = None
  /\ timers (deliver (ClockReaches 3 Samples.env_closed) w).2 = [].
Proof.
  intros w.
  destruct (delayed_commit_waits_for_guard Samples.env_open w
              (mkTimer 3 3 (_entities Samples.door) true) eq_refl)
    as (Hearly & _ & Hcommit & _); [simpl; lia|].
  destruct (delayed_commit_waits_for_guard Samples.env_closed w
              (mkTimer 3 3 (_entities Samples.door) true) eq_refl)
    as (_ & Hnone & _ & Habandon & _); [simpl; lia|].
  split; [reflexivity|].
  split; [apply (Hearly 2 Samples.env_open); simpl; lia|].
  split; [by destruct (Hcommit eq_refl)|].
  split; [|exact Hnone].
  assert (Hguard : value_candidate Samples.env_closed (sensor w) <> Some true)
    by discriminate.
  by destruct (Habandon Hguard).
Defined.

(** ** C4: the timers of a sensor *)










(** ** C9: the start of the host *)

Lemma async_check_state_listeners env w :
  state_listeners (async_check_state env w).2 = state_listeners w
  /\ startup_listeners (async_check_state env w).2 = startup_listeners w.
Proof.
  pose proof (ro_state_listeners _ _ (rendering__async_render env w)) as H1.
  pose proof (ro_startup_listeners _ _ (rendering__async_render env w)) as H2.
  destruct (async_check_state_cases env w) as [Hignore|(st & Hcand & Hnew)].
  - by rewrite async_check_state_ignores.
  - destruct (truthy (period_for (sensor w) st)) eqn:Hdelay.
    + destruct (async_check_state_delays env w st) as (p & _ & _ & ->); done.
    + by rewrite (async_check_state_commits env w st).
Qed.

Lemma fire_timer_listeners env tm w :
  state_listeners (fire_timer env tm w).2 = state_listeners w
  /\ startup_listeners (fire_timer env tm w).2 = startup_listeners w.
Proof.
  pose proof (ro_state_listeners _ _ (rendering__async_render env w)) as H1.
  pose proof (ro_startup_listeners _ _ (rendering__async_render env w)) as H2.
  destruct (decide (value_candidate env (sensor w) = Some (timer_target tm))).
  - by rewrite fire_timer_commits.
  - by rewrite fire_timer_abandons.
Qed.

Lemma fire_timers_listeners env due :
  forall w,
    state_listeners (fire_timers env due w).2 = state_listeners w
    /\ startup_listeners (fire_timers env due w).2 = startup_listeners w.
Proof.
  induction due as [|tm rest IH]; intros w; [done|].
  simpl. unfold bind.
  destruct (IH (fire_timer env tm w).2) as [-> ->].
  apply fire_timer_listeners.
Qed.

Lemma call_listeners_listeners entity env subs :
  forall w,
    state_listeners (call_listeners entity env subs w).2 = state_listeners w
    /\ startup_listeners (call_listeners entity env subs w).2
       = startup_listeners w.
Proof.
  induction subs as [|keys rest IH]; intros w; [done|].
  simpl. unfold bind.
  destruct (bool_decide (entity ∈ keys)).
  - destruct (IH (template_bsensor_state_listener entity env w).2) as [-> ->].
    apply async_check_state_listeners.
  - apply IH.
Qed.

(** Once the start signal is consumed, no event changes the
    subscriptions. *)
Lemma deliver_listeners ev w :
  startup_listeners w = O ->
  state_listeners (deliver ev w).2 = state_listeners w
  /\ startup_listeners (deliver ev w).2 = O.
Proof.
  intros Hstarted.
  cut (state_listeners (deliver ev w).2 = state_listeners w
       /\ startup_listeners (deliver ev w).2 = startup_listeners w).
  { intros [-> ->]. by split. }
  destruct ev as [env|entity env|env|t env]; simpl.
  - unfold deliver_start. by rewrite Hstarted.
  - unfold deliver_state_change. apply call_listeners_listeners.
  - apply async_check_state_listeners.
  - unfold deliver_clock. destruct (t <? now w); [done|]. simpl.
    apply (fire_timers_listeners env (List.filter (is_due t) (timers w))
             (with_timers (List.filter (fun tm => negb (is_due t tm))) w)).
Qed.

Lemma run_listeners evs :
  forall w,
    startup_listeners w = O ->
    state_listeners (run evs w) = state_listeners w
    /\ startup_listeners (run evs w) = O.
Proof.
  induction evs as [|ev rest IH]; intros w Hstarted; [done|].
  simpl. destruct (deliver_listeners ev w Hstarted) as [Hsubs Hzero].
  destruct (IH _ Hzero) as [-> ->]. by rewrite Hsubs.
Qed.

Lemma deliver_start_added self t0 env :
  deliver (HomeassistantStart env) (added self t0) =
    async_check_state env
      (with_state_listeners (fun _ => subscriptions_for (_entities self))
         (with_startup_listeners O (added self t0))).
Proof.
  simpl. unfold deliver_start, added, async_added_to_hass,
    async_listen_once_start. simpl.
  unfold template_bsensor_startup, bind, get_self. simpl.
  by destruct (_entities self).
Qed.

Lemma deliver_state_change_tracked ids key env w :
  state_listeners w = subscriptions_for ids ->
  (deliver (StateChanged key env) w).2 =
    if tracks ids key then (async_check_state env w).2 else w.
Proof.
  intros Hsubs. simpl. unfold deliver_state_change. rewrite Hsubs.
  destruct ids as [|l]; simpl; [done|].
  unfold bind, ret, template_bsensor_state_listener.
  by destruct (bool_decide (key ∈ l)).
Qed.

(** C9: on the start signal of the host a sensor whose entities are
    [MATCH_ALL] subscribes to nothing, any other sensor subscribes once,
    to exactly its entities; in both cases exactly one pass of
    [async_check_state] follows.  The signal is consumed: a second one does
    nothing.  From then on, whatever events come, the change of a key of
    the subscription runs exactly one pass of [async_check_state], and the
    change of any other key does nothing. *)
Theorem startup_subscribes_then_checks self t0 env :
  let w0 := added self t0 in
  let w := (deliver (HomeassistantStart env) w0).2 in
  state_listeners w = subscriptions_for (_entities self)
  /\ w = (async_check_state env
            (with_state_listeners (fun _ => subscriptions_for (_entities self))
               (with_startup_listeners O w0))).2
  /\ (forall env', (deliver (HomeassistantStart env') w).2 = w)
  /\ (forall evs key env',
        let w2 := run evs w in
        state_listeners w2 = subscriptions_for (_entities self)
        /\ (deliver (StateChanged key env') w2).2 =
             if tracks (_entities self) key
             then (async_check_state env' w2).2 else w2).
Proof.
  intros w0 w.
  assert (Hw : w = (async_check_state env
            (with_state_listeners (fun _ => subscriptions_for (_entities self))
               (with_startup_listeners O w0))).2).
  { unfold w, w0. by rewrite deliver_start_added. }
  assert (Hlisteners : state_listeners w = subscriptions_for (_entities self)
                       /\ startup_listeners w = O).
  { rewrite Hw. apply async_check_state_listeners. }
  destruct Hlisteners as [Hsubs Hzero].
  split; [exact Hsubs|]. split; [exact Hw|]. split.
  - intros env'. simpl. unfold deliver_start. by rewrite Hzero.
  - intros evs key env' w2.
    destruct (run_listeners evs w Hzero) as [Hkept _].
    assert (Hsubs2 : state_listeners w2 = subscriptions_for (_entities self))
      by (unfold w2; by rewrite Hkept).
    split; [exact Hsubs2|]. by apply deliver_state_change_tracked.
Qed.

Lemma startup_subscribes_then_checks_witness :
  let w := (deliver (HomeassistantStart Samples.env_closed)
              (added Samples.door 0)).2 in
  let w2 := run [ForcedUpdate Samples.env_open] w in
  state_listeners w = subscriptions_for (_entities Samples.door)
  /\ state_listeners w2 = subscriptions_for (_entities Samples.door)
  /\ (deliver (StateChanged "input_text.room" Samples.env_closed) w2).2
     = if tracks (_entities Samples.door) "input_text.room"
       then (async_check_state Samples.env_closed w2).2 else w2.
Proof.
  intros w w2.
  destruct (startup_subscribes_then_checks Samples.door 0 Samples.env_closed)
    as (Hsubs & _ & _ & Hchange).
  split; [exact Hsubs|].
  exact (Hchange [ForcedUpdate Samples.env_open] "input_text.room"
           Samples.env_closed).
Defined.

(** ** C8: the entities a sensor is set up with *)

Section SetupProperties.

Variables CONF_VALUE_TEMPLATE CONF_ICON_TEMPLATE : string.
Variables CONF_ENTITY_PICTURE_TEMPLATE CONF_AVAILABILITY_TEMPLATE : string.
Variable extract_entities : Template -> EntityIds.
Variable generate_entity_id : string -> string.

Local Abbreviation chain :=
  (chained_templates CONF_VALUE_TEMPLATE CONF_ICON_TEMPLATE
     CONF_ENTITY_PICTURE_TEMPLATE CONF_AVAILABILITY_TEMPLATE).
Local Abbreviation loop :=
  (resolve_loop CONF_VALUE_TEMPLATE CONF_ICON_TEMPLATE
     CONF_ENTITY_PICTURE_TEMPLATE CONF_AVAILABILITY_TEMPLATE extract_entities).
Local Abbreviation sensor_of :=
  (setup_sensor CONF_VALUE_TEMPLATE CONF_ICON_TEMPLATE
     CONF_ENTITY_PICTURE_TEMPLATE CONF_AVAILABILITY_TEMPLATE extract_entities
     generate_entity_id).
Local Abbreviation effects_of :=
  (setup_effects CONF_VALUE_TEMPLATE CONF_ICON_TEMPLATE
     CONF_ENTITY_PICTURE_TEMPLATE CONF_AVAILABILITY_TEMPLATE extract_entities).

(** With entities given by hand the loop changes nothing. *)
Lemma resolve_fold_manual manual l :
  forall acc,
    fold_left (resolve_step extract_entities (Some manual)) l acc = acc.
Proof.
  induction l as [|[name [t|]] rest IH]; intros acc; simpl; auto.
Qed.

Lemma join_tracked_union acc (s1 s2 : gset string) :
  join_tracked (join_tracked acc s1) s2 = join_tracked acc (s1 ∪ s2).
Proof.
  destruct acc as [|s0]; simpl; [done|]. f_equal. symmetry. apply (assoc_L (∪)).
Qed.

Lemma join_tracked_empty acc : join_tracked acc ∅ = acc.
Proof.
  destruct acc as [|s0]; simpl; [done|]. f_equal. apply (right_id_L ∅ (∪)).
Qed.

(** One turn of the loop for a configured template, without entities
    given by hand. *)
Lemma resolve_step_auto name t acc :
  resolve_step extract_entities None acc (name, Some t) =
    match extract_entities t with
    | MATCH_ALL =>
        mkResolution TrackAll
          (app (invalid_templates acc) [Py.replace name "_template" ""])
          (app (res_trace acc) [Extracted t])
    | Ids ids =>
        mkResolution (join_tracked (res_entity_ids acc) (list_to_set ids))
          (invalid_templates acc)
          (app (res_trace acc) [Extracted t])
    end.
Proof.
  simpl. destruct (extract_entities t); [done|].
  by destruct (res_entity_ids acc).
Qed.

(** Without entities given by hand the loop asks the engine about every
    configured template, in order, records the names of the unbounded
    ones, and joins the entities of the others unless one is unbounded. *)
Lemma resolve_fold_auto l :
  forall acc,
    let r := fold_left (resolve_step extract_entities None) l acc in
    res_trace r
    = app (res_trace acc) (map (fun entry => Extracted entry.2) (configured l))
    /\ invalid_templates r
       = app (invalid_templates acc) (offending_names extract_entities l)
    /\ res_entity_ids r
       = match offending extract_entities l with
         | [] => join_tracked (res_entity_ids acc) (referenced extract_entities l)
         | _ => TrackAll
         end.
Proof.
  induction l as [|[name [t|]] rest IH]; intros acc.
  - simpl. rewrite !app_nil_r. split; [done|]. split; [done|].
    unfold referenced. simpl. by rewrite join_tracked_empty.
  - cbn [fold_left]. rewrite resolve_step_auto.
    unfold offending_names, offending, referenced, is_unbounded.
    cbn [configured omap list_omap snd fst List.filter map union_list foldr].
    fold (configured rest).
    destruct (extract_entities t) as [|ids] eqn:Ht.
    + match goal with
      | |- context [fold_left _ rest ?acc'] =>
          destruct (IH acc') as (H1 & H2 & H3)
      end.
      cbn [res_trace invalid_templates res_entity_ids] in H1, H2, H3.
      cbv zeta. rewrite H1, H2, H3. rewrite <- !app_assoc.
      split; [done|]. split; [done|].
      by destruct (offending extract_entities rest).
    + match goal with
      | |- context [fold_left _ rest ?acc'] =>
          destruct (IH acc') as (H1 & H2 & H3)
      end.
      cbn [res_trace invalid_templates res_entity_ids] in H1, H2, H3.
      cbv zeta. rewrite H1, H2, H3.
      split; [by rewrite <- app_assoc|]. split; [done|].
      unfold offending, is_unbounded.
      destruct (List.filter _ (configured rest)); [|done].
      by rewrite join_tracked_union.
  - apply IH.
Qed.

Lemma configured_elem name t l :
  (name, t) ∈ configured l <-> (name, Some t) ∈ l.
Proof.
  unfold configured. rewrite list_elem_of_omap. split.
  - intros ([name' [t'|]] & Hin & Heq); simpl in Heq; [|done].
    by simplify_eq.
  - intros Hin. by exists (name, Some t).
Qed.

Lemma referenced_elem key l :
  key ∈ referenced extract_entities l <->
  exists name t ids,
    (name, Some t) ∈ l /\ extract_entities t = Ids ids /\ key ∈ ids.
Proof.
  unfold referenced. rewrite elem_of_union_list. split.
  - intros (X & HX & Hkey).
    apply list_elem_of_fmap in HX as ([name t] & -> & Hin). simpl in Hkey.
    destruct (extract_entities t) as [|ids] eqn:Ht;
      [by apply not_elem_of_empty in Hkey|].
    exists name, t, ids. rewrite <- configured_elem.
    split; [done|]. split; [done|]. by apply elem_of_list_to_set in Hkey.
  - intros (name & t & ids & Hin & Ht & Hkey).
    exists (list_to_set ids). split; [|by apply elem_of_list_to_set].
    apply list_elem_of_fmap. exists (name, t). simpl. rewrite Ht.
    split; [done|]. by apply configured_elem.
Qed.

Lemma resolve_loop_auto cfg :
  cfg_entity_id cfg = None ->
  res_trace (loop cfg)
  = map (fun entry => Extracted entry.2) (configured (chain cfg))
  /\ invalid_templates (loop cfg)
     = offending_names extract_entities (chain cfg)
  /\ res_entity_ids (loop cfg)
     = match offending extract_entities (chain cfg) with
       | [] => TrackSet (referenced extract_entities (chain cfg))
       | _ => TrackAll
       end.
Proof.
  intros Hauto. unfold resolve_loop. rewrite Hauto.
  destruct (resolve_fold_auto (chain cfg) (mkResolution (TrackSet ∅) [] []))
    as (H1 & H2 & H3).
  split; [exact H1|]. split; [exact H2|]. rewrite H3. simpl.
  destruct (offending extract_entities (chain cfg)); [|done].
  f_equal. apply (left_id_L ∅ (∪)).
Qed.

(** C8: with entities given by hand the sensor tracks exactly those, the
    engine is not asked about any template and nothing is logged.
    Otherwise the engine is asked once about every configured template;
    if none is unbounded the sensor tracks the union of their entities,
    each once, and nothing is logged; if some are unbounded the sensor
    tracks [MATCH_ALL] and one warning is logged, which names the device
    and the unbounded templates, in the order value, icon, entity picture,
    availability, attributes, each with ["_template"] cut off. *)
Theorem dependencies_resolved device cfg :
  (forall manual,
      cfg_entity_id cfg = Some manual ->
      _entities (sensor_of device cfg) = Ids manual
      /\ effects_of device cfg = [])
  /\ (cfg_entity_id cfg = None ->
        (offending extract_entities (chain cfg) = [] ->
           (exists ids,
               _entities (sensor_of device cfg) = Ids ids
               /\ NoDup ids
               /\ forall key,
                    key ∈ ids <->
                    exists name t ks,
                      (name, Some t) ∈ chain cfg
                      /\ extract_entities t = Ids ks /\ key ∈ ks)
           /\ effects_of device cfg
              = map (fun entry => Extracted entry.2) (configured (chain cfg)))
        /\ (offending extract_entities (chain cfg) <> [] ->
              _entities (sensor_of device cfg) = MATCH_ALL
              /\ effects_of device cfg
                 = app (map (fun entry => Extracted entry.2)
                          (configured (chain cfg)))
                     [LogWarning setup_warning_text
                        [ArgStr device;
                         ArgStr (Py.join ", "
                                   (offending_names extract_entities
                                      (chain cfg)))]])).
Proof.
  split.
  - intros manual Hmanual. split.
    + simpl. unfold resolved_entity_ids. by rewrite Hmanual.
    + unfold setup_effects, setup_warning, resolve_loop.
      by rewrite Hmanual, resolve_fold_manual.
  - intros Hauto.
    destruct (resolve_loop_auto cfg Hauto) as (Htrace & Hnames & Hids).
    split; intros Hoff.
    + rewrite Hoff in Hids. split.
      * exists (elements (referenced extract_entities (chain cfg))).
        split; [|split].
        -- simpl. unfold resolved_entity_ids. by rewrite Hauto, Hids.
        -- apply NoDup_elements.
        -- intros key. rewrite elem_of_elements. apply referenced_elem.
      * unfold setup_effects, setup_warning. rewrite Htrace, Hnames.
        unfold offending_names. rewrite Hoff. simpl. by rewrite app_nil_r.
    + split.
      * simpl. unfold resolved_entity_ids. rewrite Hauto, Hids.
        by destruct (offending extract_entities (chain cfg)).
      * unfold setup_effects, setup_warning. rewrite Htrace, Hnames.
        unfold offending_names.
        by destruct (offending extract_entities (chain cfg)).
Qed.

(** What [async_setup_platform] hands over: one sensor for each device, in
    order, each with the entities resolved for it; the value returned tells
    whether there was any. *)
Lemma async_setup_platform_sensors sensors_config :
  let result :=
    async_setup_platform CONF_VALUE_TEMPLATE CONF_ICON_TEMPLATE
      CONF_ENTITY_PICTURE_TEMPLATE CONF_AVAILABILITY_TEMPLATE
      extract_entities generate_entity_id sensors_config in
  result.1.1 = map (fun dc => sensor_of dc.1 dc.2) sensors_config
  /\ result.2 = negb (bool_decide (sensors_config = []))
  /\ forall device cfg,
       (device, cfg) ∈ sensors_config ->
       exists self,
         self ∈ result.1.1
         /\ _entities self
            = resolved_entity_ids CONF_VALUE_TEMPLATE CONF_ICON_TEMPLATE
                CONF_ENTITY_PICTURE_TEMPLATE CONF_AVAILABILITY_TEMPLATE
                extract_entities cfg.
Proof.
  intros result.
  assert (Hsensors : result.1.1 = map (fun dc => sensor_of dc.1 dc.2) sensors_config).
  { unfold result, async_setup_platform. by destruct sensors_config. }
  split; [exact Hsensors|]. split.
  - unfold result, async_setup_platform. by destruct sensors_config.
  - intros device cfg Hin. exists (sensor_of device cfg). split; [|done].
    rewrite Hsensors. apply list_elem_of_fmap. by exists (device, cfg).
Qed.

End SetupProperties.

Lemma dependencies_resolved_witness :
  let sensor_of :=
    setup_sensor "value_template" "icon_template" "entity_picture_template"
      "availability_template" SetupSamples.extract_entities
      SetupSamples.generate_entity_id in
  let effects_of :=
    setup_effects "value_template" "icon_template" "entity_picture_template"
      "availability_template" SetupSamples.extract_entities in
  _entities (sensor_of "busy" SetupSamples.busy_config) = MATCH_ALL
  /\ effects_of "busy" SetupSamples.busy_config
     = [Extracted SetupSamples.all_states; Extracted SetupSamples.sun_icon;
        Extracted SetupSamples.elevation; Extracted SetupSamples.any_light;
        LogWarning setup_warning_text [ArgStr "busy"; ArgStr "value, lights"]]
  /\ _entities (sensor_of "busy" SetupSamples.manual_config)
     = Ids ["sensor.time"]
  /\ effects_of "busy" SetupSamples.manual_config = []
  /\ effects_of "sun" SetupSamples.sun_config
     = [Extracted SetupSamples.sun_up; Extracted SetupSamples.sun_icon;
        Extracted SetupSamples.elevation].
Proof.
  intros sensor_of effects_of.
  destruct (dependencies_resolved "value_template" "icon_template"
              "entity_picture_template" "availability_template"
              SetupSamples.extract_entities SetupSamples.generate_entity_id
              "busy" SetupSamples.busy_config) as [_ Hauto].
  destruct (Hauto eq_refl) as [_ Hunbounded].
  destruct Hunbounded as [Hall Hwarned]; [discriminate|].
  destruct (dependencies_resolved "value_template" "icon_template"
              "entity_picture_template" "availability_template"
              SetupSamples.extract_entities SetupSamples.generate_entity_id
              "busy" SetupSamples.manual_config) as [Hmanual _].
  destruct (Hmanual ["sensor.time"] eq_refl) as [Hids Hquiet].
  destruct (dependencies_resolved "value_template" "icon_template"
              "entity_picture_template" "availability_template"
              SetupSamples.extract_entities SetupSamples.generate_entity_id
              "sun" SetupSamples.sun_config) as [_ Hsun].
  destruct (Hsun eq_refl) as [Hbounded _].
  destruct (Hbounded eq_refl) as [_ Hsun_effects].
  split; [exact Hall|]. split; [exact Hwarned|]. split; [exact Hids|].
  split; [exact Hquiet|exact Hsun_effects].
Defined.

(** * Further properties *)

(** ** Invariants of the life of a sensor *)

Section Invariant.

Variable P : Hass -> Prop.

Hypothesis P_render : forall env w, P w -> P (_async_render env w).2.
Hypothesis P_commit : forall st w, P w -> P (set_state st w).2.
Hypothesis P_timer :
  forall p st w,
    P w -> period_for (sensor w) st = Some p -> p <> 0 ->
    P (async_track_same_state p st (_entities (sensor w)) w).2.
Hypothesis P_discard :
  forall t w,
    P w -> P (with_timers (List.filter (fun tm => negb (is_due t tm))) w).
Hypothesis P_now : forall t w, P w -> now w <= t -> P (with_now t w).
Hypothesis P_start :
  forall n w,
    P w -> startup_listeners w = S n ->
    P (with_state_listeners
         (fun l => app l (subscriptions_for (_entities (sensor w))))
         (with_startup_listeners O w)).

(** A property kept by rendering, by a commit, by the start of a timer as
    [async_check_state] starts it, and by the bookkeeping of the host, is
    kept by [async_check_state]. *)
Lemma async_check_state_preserves env w : P w -> P (async_check_state env w).2.
Proof.
  intros HP.
  destruct (async_check_state_cases env w) as [Hignore|(st & Hcand & Hnew)].
  - rewrite async_check_state_ignores by done. by apply P_render.
  - destruct (truthy (period_for (sensor w) st)) eqn:Hdelay.
    + destruct (async_check_state_delays env w st) as (p & Hp & Hp0 & ->);
        try done.
      rewrite <- (entities_after_render env w).
      apply P_timer; [by apply P_render| |done].
      by rewrite period_for_after_render.
    + rewrite (async_check_state_commits env w st) by done.
      by apply P_commit, P_render.
Qed.

Lemma fire_timer_preserves env tm w : P w -> P (fire_timer env tm w).2.
Proof.
  intros HP.
  destruct (decide (value_candidate env (sensor w) = Some (timer_target tm))).
  - rewrite fire_timer_commits by done. by apply P_commit, P_render.
  - rewrite fire_timer_abandons by done. by apply P_render.
Qed.

Lemma fire_timers_preserves env due :
  forall w, P w -> P (fire_timers env due w).2.
Proof.
  induction due as [|tm rest IH]; intros w HP; [done|].
  simpl. unfold bind. by apply IH, fire_timer_preserves.
Qed.

Lemma call_listeners_preserves entity env subs :
  forall w, P w -> P (call_listeners entity env subs w).2.
Proof.
  induction subs as [|keys rest IH]; intros w HP; [done|].
  simpl. unfold bind. apply IH.
  destruct (bool_decide (entity ∈ keys)); [|done].
  by apply async_check_state_preserves.
Qed.

Lemma fire_timers_now env due :
  forall w, now (fire_timers env due w).2 = now w.
Proof.
  induction due as [|tm rest IH]; intros w; [done|].
  simpl. unfold bind. rewrite IH.
  pose proof (ro_now _ _ (rendering__async_render env w)) as Hnow.
  destruct (decide (value_candidate env (sensor w) = Some (timer_target tm))).
  - by rewrite fire_timer_commits.
  - by rewrite fire_timer_abandons.
Qed.

Lemma deliver_preserves ev w : P w -> P (deliver ev w).2.
Proof.
  intros HP. destruct ev as [env|entity env|env|t env]; simpl.
  - unfold deliver_start. destruct (startup_listeners w) as [|n] eqn:Hn; [done|].
    unfold template_bsensor_startup, bind, get_self. simpl.
    apply async_check_state_preserves.
    pose proof (P_start n w HP Hn) as Hstart.
    destruct (_entities (sensor w)) as [|ids] eqn:Hids; simpl in Hstart.
    + destruct w. unfold with_state_listeners, with_startup_listeners in *.
      simpl in *. by rewrite app_nil_r in Hstart.
    + exact Hstart.
  - unfold deliver_state_change. by apply call_listeners_preserves.
  - by apply async_check_state_preserves.
  - unfold deliver_clock. destruct (Z.ltb_spec t (now w)) as [|Hnow]; [done|].
    simpl. apply P_now.
    + apply fire_timers_preserves. by apply P_discard.
    + by rewrite fire_timers_now.
Qed.

Lemma run_preserves evs : forall w, P w -> P (run evs w).
Proof.
  induction evs as [|ev rest IH]; intros w HP; [done|].
  simpl. by apply IH, deliver_preserves.
Qed.

End Invariant.

(** ** The configuration never changes *)

Lemma set_state_sensor st w :
  sensor (set_state st w).2 = set__state (Some st) (sensor w).
Proof. reflexivity. Qed.

Lemma run_settings evs w : settings (sensor (run evs w)) = settings (sensor w).
Proof.
  apply (run_preserves (fun w' => settings (sensor w') = settings (sensor w)));
    try done.
  intros env w' Hw'.
  by rewrite (ro_settings _ _ (rendering__async_render env w')).
Qed.

(** ** The committed value and the state writes *)

Lemma last_published_quiet evs :
  forall acc,
    Forall quiet evs ->
    fold_left
      (fun acc e => match e with Published snap => snap_is_on snap | _ => acc end)
      evs acc = acc.
Proof.
  induction evs as [|e rest IH]; intros acc Hq; [done|].
  apply Forall_cons in Hq as [He Hrest]. simpl.
  destruct e; try (by apply IH). by destruct He.
Qed.

Lemma last_published_app_quiet tr evs :
  Forall quiet evs -> last_published (app tr evs) = last_published tr.
Proof.
  intros Hq. unfold last_published. rewrite fold_left_app.
  by apply last_published_quiet.
Qed.

Lemma last_published_snoc tr snap :
  last_published (app tr [Published snap]) = snap_is_on snap.
Proof. unfold last_published. by rewrite fold_left_app. Qed.

Lemma committed_is_last_published_run evs w :
  _state (sensor w) = last_published (trace w) ->
  _state (sensor (run evs w)) = last_published (trace (run evs w)).
Proof.
  apply (run_preserves
           (fun w' => _state (sensor w') = last_published (trace w')));
    try done.
  - intros env w' Hw'.
    destruct (ro_trace _ _ (rendering__async_render env w'))
      as (evs' & -> & Hq).
    rewrite last_published_app_quiet by done.
    by rewrite (ro_state _ _ (rendering__async_render env w')).
  - intros st w' _. simpl. by rewrite last_published_snoc.
Qed.

(** X1: from the moment a sensor with an unknown state is added, after any
    events, the committed value is the value of the last state write
    handed to the host, and is unknown exactly as long as there was none:
    the committed value never changes without the host being told. *)
Theorem committed_is_last_published self t0 evs :
  _state self = None ->
  let w := run evs (added self t0) in
  _state (sensor w) = last_published (trace w).
Proof.
  intros Hfresh w. by apply committed_is_last_published_run.
Qed.

Lemma committed_is_last_published_witness :
  let w := run [HomeassistantStart Samples.env_open;
                ClockReaches 2 Samples.env_open;
                StateChanged "binary_sensor.door" Samples.env_closed;
                ClockReaches 3 Samples.env_closed]
             (added Samples.door 0) in
  _state (sensor w) = last_published (trace w).
Proof.
  exact (committed_is_last_published Samples.door 0
           [HomeassistantStart Samples.env_open;
            ClockReaches 2 Samples.env_open;
            StateChanged "binary_sensor.door" Samples.env_closed;
            ClockReaches 3 Samples.env_closed] eq_refl).
Defined.

Lemma writes_boolean_quiet e : quiet e -> writes_boolean e.
Proof. by destruct e. Qed.

Lemma published_boolean_run evs w :
  Forall writes_boolean (trace w) ->
  Forall writes_boolean (trace (run evs w)).
Proof.
  apply (run_preserves (fun w' => Forall writes_boolean (trace w')));
    try done.
  - intros env w' Hw'.
    destruct (ro_trace _ _ (rendering__async_render env w'))
      as (evs' & -> & Hq).
    apply Forall_app. split; [done|].
    eapply Forall_impl; [exact Hq|]. apply writes_boolean_quiet.
  - intros st w' Hw'. simpl. apply Forall_app. split; [done|].
    repeat constructor. simpl. by eexists.
Qed.

Lemma known_stays_known_run evs w :
  is_Some (_state (sensor w)) -> is_Some (_state (sensor (run evs w))).
Proof.
  apply (run_preserves (fun w' => is_Some (_state (sensor w')))); try done.
  intros env w' Hw'.
  by rewrite (ro_state _ _ (rendering__async_render env w')).
Qed.

(** X2: the unknown state is only the state before the first commit: once a
    value is committed, no event makes the state unknown again, and every
    state write handed to the host since the sensor was added carries a
    boolean. *)
Theorem unknown_only_before_first_commit :
  (forall w evs,
      is_Some (_state (sensor w)) -> is_Some (_state (sensor (run evs w))))
  /\ (forall self t0 evs snap,
        Published snap ∈ trace (run evs (added self t0)) ->
        is_Some (snap_is_on snap)).
Proof.
  split.
  - intros w evs. apply known_stays_known_run.
  - intros self t0 evs snap Hin.
    assert (Hall : Forall writes_boolean (trace (run evs (added self t0))))
      by (apply published_boolean_run; constructor).
    rewrite Forall_forall in Hall. exact (Hall _ Hin).
Qed.

Lemma unknown_only_before_first_commit_witness :
  let w := (async_check_state Samples.env_closed (added Samples.door 0)).2 in
  is_Some (_state (sensor (run [ForcedUpdate Samples.env_starting;
                                StateChanged "sun.sun" Samples.env_open] w))).
Proof.
  intros w.
  apply (proj1 unknown_only_before_first_commit w).
  exists false. vm_compute. reflexivity.
Defined.

(** ** The attributes shown are configured attributes *)

Lemma rendered_attributes_keys env items :
  forall (attrs : gmap string string) key,
    is_Some (rendered_attributes env items attrs !! key) ->
    key ∈ items.*1 \/ is_Some (attrs !! key).
Proof.
  induction items as [|[k0 t0] rest IH]; intros attrs key Hkey.
  - by right.
  - rewrite rendered_attributes_cons in Hkey.
    apply IH in Hkey as [Hin|Hkey].
    + left. rewrite fmap_cons. by apply list_elem_of_further.
    + destruct (env t0) as [v0|e0]; [|by right].
      destruct (decide (k0 = key)) as [->|Hne].
      * left. rewrite fmap_cons. apply list_elem_of_here.
      * right. by rewrite lookup_insert_ne in Hkey.
Qed.

(** After a pass the attributes are those of before, or those that
    rendered in the pass. *)
Lemma _async_render_attributes_cases env w :
  _attributes (sensor (_async_render env w).2) = _attributes (sensor w)
  \/ exists items,
       _attribute_templates (sensor w) = Some items
       /\ _attributes (sensor (_async_render env w).2)
          = rendered_attributes env items ∅.
Proof.
  destruct (aborts_early env (sensor w)) eqn:Habort.
  - left. unfold aborts_early in Habort.
    destruct (env (_template (sensor w))) as [v|ex] eqn:Hex; [done|].
    by rewrite (_async_render_undefined env w ex).
  - destruct (_attribute_templates (sensor w)) as [items|] eqn:Hitems.
    + right. exists items. split; [done|].
      by apply _async_render_attributes.
    + left. rewrite _async_render_run by done.
      rewrite render_properties_attributes.
      unfold before_properties, attributes_phase. simpl. by rewrite Hitems.
Qed.

Lemma attribute_names_settings s s' :
  settings s' = settings s -> attribute_names s' = attribute_names s.
Proof.
  unfold settings, attribute_names. intros Heq.
  assert (_attribute_templates s' = _attribute_templates s) as ->
    by by simplify_eq.
  done.
Qed.

Lemma attributes_configured_run evs w :
  (forall key, is_Some (_attributes (sensor w) !! key) ->
               key ∈ attribute_names (sensor w)) ->
  forall key,
    is_Some (_attributes (sensor (run evs w)) !! key) ->
    key ∈ attribute_names (sensor (run evs w)).
Proof.
  apply (run_preserves
           (fun w' => forall key,
                is_Some (_attributes (sensor w') !! key) ->
                key ∈ attribute_names (sensor w'))); try done.
  intros env w' Hw' key Hkey.
  rewrite (attribute_names_settings (sensor w'))
    by apply (ro_settings _ _ (rendering__async_render env w')).
  destruct (_async_render_attributes_cases env w')
    as [Hsame|(items & Hitems & Hnew)].
  - rewrite Hsame in Hkey. by apply Hw'.
  - rewrite Hnew in Hkey.
    apply rendered_attributes_keys in Hkey as [Hin|Hkey].
    + unfold attribute_names. by rewrite Hitems.
    + rewrite lookup_empty in Hkey. by destruct Hkey.
Qed.

(** X3: from the moment a sensor without attributes is added, after any
    events, every attribute it shows is one of the configured attribute
    names; a sensor without attribute templates never shows any. *)
Theorem attributes_are_configured self t0 evs key :
  _attributes self = ∅ ->
  is_Some (_attributes (sensor (run evs (added self t0))) !! key) ->
  key ∈ attribute_names self.
Proof.
  intros Hfresh Hkey.
  rewrite <- (attribute_names_settings self (sensor (run evs (added self t0))))
    by apply (run_settings evs (added self t0)).
  apply attributes_configured_run; [|done].
  intros key' Hkey'. simpl in Hkey'. rewrite Hfresh, lookup_empty in Hkey'.
  by destruct Hkey'.
Qed.

Lemma attributes_are_configured_witness :
  "battery" ∈ attribute_names Samples.door.
Proof.
  apply (attributes_are_configured Samples.door 0
           [HomeassistantStart Samples.env_open] "battery").
  - reflexivity.
  - exists "87". vm_compute. reflexivity.
Defined.

(** ** The timers a sensor starts *)

Lemma timer_as_configured_frame w w' tm :
  settings (sensor w') = settings (sensor w) ->
  now w <= now w' ->
  timer_as_configured w tm -> timer_as_configured w' tm.
Proof.
  intros Hsettings Hnow (Hperiod & Hp0 & Hids & Hstart).
  destruct (settings_delays _ _ Hsettings) as (_ & _ & Hent).
  split; [by rewrite (period_for_settings _ _ _ Hsettings)|].
  split; [done|]. split; [by rewrite Hent|lia].
Qed.

Lemma timers_as_configured_run evs w :
  Forall (timer_as_configured w) (timers w) ->
  Forall (timer_as_configured (run evs w)) (timers (run evs w)).
Proof.
  apply (run_preserves
           (fun w' => Forall (timer_as_configured w') (timers w'))).
  - intros env w' Hw'.
    rewrite (ro_timers _ _ (rendering__async_render env w')).
    eapply Forall_impl; [exact Hw'|]. intros tm.
    apply timer_as_configured_frame.
    + apply (ro_settings _ _ (rendering__async_render env w')).
    + by rewrite (ro_now _ _ (rendering__async_render env w')).
  - intros st w' Hw'. simpl.
    eapply Forall_impl; [exact Hw'|]. intros tm.
    by apply timer_as_configured_frame.
  - intros p st w' _ Hp Hp0. simpl. repeat constructor; simpl; try done. lia.
  - intros t w' Hw'. simpl.
    induction (timers w') as [|tm rest IH]; [constructor|].
    apply Forall_cons in Hw' as [Htm Hrest]. simpl.
    destruct (negb (is_due t tm)); [constructor|]; auto.
  - intros t w' Hw' Hnow. simpl.
    eapply Forall_impl; [exact Hw'|]. intros tm.
    by apply timer_as_configured_frame.
  - intros n w' Hw' _. simpl. exact Hw'.
Qed.

(** X4: every timer pending after any events since the sensor was added runs
    for the delay configured for its direction ([_delay_on] for true,
    [_delay_off] for false), which is not zero, watches the entities of the
    sensor, and was started in the past: no timer is ever started for a
    direction without delay. *)
Theorem timers_are_as_configured self t0 evs tm :
  let w := run evs (added self t0) in
  tm ∈ timers w ->
  period_for self (timer_target tm) = Some (timer_period tm)
  /\ timer_period tm <> 0
  /\ timer_entity_ids tm = _entities self
  /\ timer_deadline tm - timer_period tm <= now w.
Proof.
  intros w Hin.
  assert (Hall : Forall (timer_as_configured w) (timers w))
    by (apply timers_as_configured_run; constructor).
  rewrite Forall_forall in Hall.
  destruct (Hall _ Hin) as (Hperiod & Hp0 & Hids & Hstart).
  pose proof (run_settings evs (added self t0)) as Hsettings.
  destruct (settings_delays _ _ Hsettings) as (_ & _ & Hent).
  split; [by rewrite <- (period_for_settings _ _ _ Hsettings)|].
  split; [done|]. split; [|done].
  rewrite Hids. unfold w. by rewrite Hent.
Qed.

Lemma timers_are_as_configured_witness :
  let w := run [HomeassistantStart Samples.env_open;
                ClockReaches 2 Samples.env_open] (added Samples.door 0) in
  let tm := mkTimer 3 3 (_entities Samples.door) true in
  period_for Samples.door (timer_target tm) = Some (timer_period tm)
  /\ timer_period tm <> 0
  /\ timer_entity_ids tm = _entities Samples.door
  /\ timer_deadline tm - timer_period tm <= now w.
Proof.
  intros w tm.
  apply (timers_are_as_configured Samples.door 0
           [HomeassistantStart Samples.env_open;
            ClockReaches 2 Samples.env_open] tm).
  assert (Htimers : timers w = [tm]) by (vm_compute; reflexivity).
  fold w. rewrite Htimers. apply list_elem_of_here.
Defined.

(** ** What step 3 leaves in each field *)

Lemma render_properties_field env templates state name :
  name ∈ ["_icon"; "_entity_picture"; "_available"] ->
  forall w,
    getattr name (sensor (render_properties env templates state w).2)
    = match assigned_text env templates name with
      | Some value => Some (assigned_value name value)
      | None => getattr name (sensor w)
      end.
Proof.
  intros Hname.
  induction templates as [|[n [t|]] rest IH]; intros w; simpl; auto.
  unfold bind, async_render, emit, ret, modify_self. simpl.
  destruct (env t) as [v|ex]; simpl.
  - rewrite IH. simpl.
    destruct (assigned_text env rest name) as [later|]; [done|].
    fold (assigned_value n v).
    destruct (String.eqb_spec n name) as [->|Hne].
    + by apply getattr_setattr_eq.
    + apply getattr_setattr_ne. congruence.
  - unfold bind, get_self. simpl. by destruct (is_undefined_error ex).
Qed.

(** A field whose name has no template in the loop is not assigned. *)
Lemma assigned_text_unconfigured env templates name :
  (forall t, (name, Some t) ∉ templates) ->
  assigned_text env templates name = None.
Proof.
  induction templates as [|[n [t|]] rest IH]; intros Hnone; simpl; auto.
  - destruct (env t) as [v|ex]; [|done].
    rewrite IH.
    + destruct (String.eqb_spec n name) as [->|Hne]; [|done].
      destruct (Hnone t). apply list_elem_of_here.
    + intros t' Hin. apply (Hnone t'). by apply list_elem_of_further.
  - apply IH. intros t' Hin. apply (Hnone t'). by apply list_elem_of_further.
Qed.

Lemma _async_render_field env w name :
  name ∈ ["_icon"; "_entity_picture"; "_available"] ->
  getattr name (sensor (_async_render env w).2)
  = if aborts_early env (sensor w) then getattr name (sensor w)
    else match assigned_text env (property_templates (sensor w)) name with
         | Some value => Some (assigned_value name value)
         | None => getattr name (sensor w)
         end.
Proof.
  intros Hname. destruct (aborts_early env (sensor w)) eqn:Habort.
  - unfold aborts_early in Habort.
    destruct (env (_template (sensor w))) as [v|ex] eqn:Hex; [done|].
    by rewrite (_async_render_undefined env w ex).
  - rewrite _async_render_run by done.
    rewrite render_properties_field by done.
    by rewrite before_properties_getattr.
Qed.

Lemma settings_templates s s' :
  settings s' = settings s ->
  _template s' = _template s
  /\ property_templates s' = property_templates s
  /\ _attribute_templates s' = _attribute_templates s.
Proof.
  unfold settings, property_templates. intros Heq.
  simplify_eq. split; [done|]. split; [|done]. congruence.
Qed.

(** ** A field without template *)

Lemma unconfigured_field_run name evs w :
  name ∈ ["_icon"; "_entity_picture"; "_available"] ->
  (forall t, (name, Some t) ∉ property_templates (sensor w)) ->
  getattr name (sensor (run evs w)) = getattr name (sensor w).
Proof.
  intros Hname Hnone.
  apply (run_preserves
           (fun w' => settings (sensor w') = settings (sensor w)
                      /\ getattr name (sensor w') = getattr name (sensor w)));
    try done.
  intros env w' [Hsettings Hfield]. split.
  - by rewrite (ro_settings _ _ (rendering__async_render env w')).
  - rewrite _async_render_field by done.
    destruct (settings_templates _ _ Hsettings) as (_ & -> & _).
    rewrite assigned_text_unconfigured by done.
    by destruct (aborts_early env (sensor w')).
Qed.

(** X5: a field of step 3 that has no template keeps, through any events,
    the value the sensor was constructed with: without an availability
    template the sensor stays available, without an icon template it has
    no icon, without an entity picture template it has no picture. *)
Theorem field_without_template_is_constant self t0 evs :
  let s := sensor (run evs (added self t0)) in
  (_icon_template self = None -> _icon s = _icon self)
  /\ (_entity_picture_template self = None ->
        _entity_picture s = _entity_picture self)
  /\ (_availability_template self = None -> _available s = _available self).
Proof.
  intros s.
  assert (Hfield : forall name,
             name ∈ ["_icon"; "_entity_picture"; "_available"] ->
             (forall t, (name, Some t) ∉ property_templates self) ->
             getattr name s = getattr name self).
  { intros name Hname Hnone.
    by apply (unconfigured_field_run name evs (added self t0)). }
  split; [|split]; intros Hnone.
  - specialize (Hfield "_icon"). unfold getattr in Hfield. simpl in Hfield.
    assert (Heq : VStr <$> _icon s = VStr <$> _icon self).
    { apply Hfield; [apply list_elem_of_here|].
      intros t Hin. unfold property_templates in Hin. rewrite Hnone in Hin.
      repeat (apply elem_of_cons in Hin as [Hin|Hin]; [by simplify_eq|]).
      by apply elem_of_nil in Hin. }
    destruct (_icon s), (_icon self); by simplify_eq.
  - specialize (Hfield "_entity_picture"). unfold getattr in Hfield.
    simpl in Hfield.
    assert (Heq : VStr <$> _entity_picture s = VStr <$> _entity_picture self).
    { apply Hfield; [apply list_elem_of_further, list_elem_of_here|].
      intros t Hin. unfold property_templates in Hin. rewrite Hnone in Hin.
      repeat (apply elem_of_cons in Hin as [Hin|Hin]; [by simplify_eq|]).
      by apply elem_of_nil in Hin. }
    destruct (_entity_picture s), (_entity_picture self); by simplify_eq.
  - specialize (Hfield "_available"). unfold getattr in Hfield.
    simpl in Hfield.
    assert (Heq : Some (VBool (_available s)) = Some (VBool (_available self))).
    { apply Hfield;
        [apply list_elem_of_further, list_elem_of_further, list_elem_of_here|].
      intros t Hin. unfold property_templates in Hin. rewrite Hnone in Hin.
      repeat (apply elem_of_cons in Hin as [Hin|Hin]; [by simplify_eq|]).
      by apply elem_of_nil in Hin. }
    by simplify_eq.
Qed.

Lemma field_without_template_is_constant_witness :
  let s := sensor (run [HomeassistantStart Samples.env_open;
                        ForcedUpdate Samples.env_icon_fails]
                     (added MoreSamples.plain 0)) in
  _available s = _available MoreSamples.plain.
Proof.
  intros s.
  destruct (field_without_template_is_constant MoreSamples.plain 0
              [HomeassistantStart Samples.env_open;
               ForcedUpdate Samples.env_icon_fails]) as (_ & _ & Havailable).
  exact (Havailable eq_refl).
Defined.

(** ** Rendering twice *)

Lemma sensor_ext s s' :
  settings s' = settings s ->
  _state s' = _state s ->
  _icon s' = _icon s ->
  _entity_picture s' = _entity_picture s ->
  _available s' = _available s ->
  _attributes s' = _attributes s ->
  s' = s.
Proof.
  destruct s, s'. unfold settings. simpl. intros. by simplify_eq.
Qed.

Lemma aborts_early_settings env s s' :
  settings s' = settings s -> aborts_early env s' = aborts_early env s.
Proof.
  intros Heq. destruct (settings_templates _ _ Heq) as (Ht & _ & _).
  unfold aborts_early. by rewrite Ht.
Qed.

Lemma field_rendered_twice env w name :
  name ∈ ["_icon"; "_entity_picture"; "_available"] ->
  let w1 := (_async_render env w).2 in
  getattr name (sensor (_async_render env w1).2) = getattr name (sensor w1).
Proof.
  intros Hname w1.
  pose proof (ro_settings _ _ (rendering__async_render env w)) as Hsettings.
  fold w1 in Hsettings.
  rewrite (_async_render_field env w1) by done.
  rewrite (aborts_early_settings env _ _ Hsettings).
  destruct (settings_templates _ _ Hsettings) as (_ & -> & _).
  destruct (aborts_early env (sensor w)) eqn:Habort; [done|].
  destruct (assigned_text env (property_templates (sensor w)) name)
    as [v|] eqn:Hv; [|done].
  unfold w1. rewrite (_async_render_field env w) by done.
  by rewrite Habort, Hv.
Qed.

Lemma attributes_rendered_twice env w :
  let w1 := (_async_render env w).2 in
  _attributes (sensor (_async_render env w1).2) = _attributes (sensor w1).
Proof.
  intros w1.
  pose proof (ro_settings _ _ (rendering__async_render env w)) as Hsettings.
  fold w1 in Hsettings.
  destruct (settings_templates _ _ Hsettings) as (_ & _ & Hitems1).
  destruct (_async_render_attributes_cases env w1)
    as [Hsame|(items & Hitems & Hnew)]; [done|].
  rewrite Hnew.
  destruct (aborts_early env (sensor w1)) eqn:Habort.
  - unfold aborts_early in Habort.
    destruct (env (_template (sensor w1))) as [v|ex] eqn:Hex; [done|].
    rewrite (_async_render_undefined env w1 ex) in Hnew by done.
    by rewrite <- Hnew.
  - symmetry. apply _async_render_attributes.
    + by rewrite <- (aborts_early_settings env _ _ Hsettings).
    + by rewrite <- Hitems1.
Qed.

(** X6: rendering is idempotent.  A second pass of [_async_render] against
    the same state of the host returns the same candidate and leaves every
    field of the sensor as the first pass left it. *)
Theorem rendering_twice_is_rendering_once env w :
  let w1 := (_async_render env w).2 in
  (_async_render env w1).1 = (_async_render env w).1
  /\ sensor (_async_render env w1).2 = sensor w1.
Proof.
  intros w1.
  pose proof (ro_settings _ _ (rendering__async_render env w)) as Hsettings.
  fold w1 in Hsettings. split.
  - rewrite !_async_render_returns. unfold value_candidate.
    by destruct (settings_templates _ _ Hsettings) as (-> & _ & _).
  - pose proof (field_rendered_twice env w) as Hfield. fold w1 in Hfield.
    apply sensor_ext.
    + apply (ro_settings _ _ (rendering__async_render env w1)).
    + apply (ro_state _ _ (rendering__async_render env w1)).
    + specialize (Hfield "_icon" ltac:(apply list_elem_of_here)).
      unfold getattr in Hfield. simpl in Hfield.
      destruct (_icon (sensor (_async_render env w1).2)), (_icon (sensor w1));
        by simplify_eq.
    + specialize (Hfield "_entity_picture"
                    ltac:(apply list_elem_of_further, list_elem_of_here)).
      unfold getattr in Hfield. simpl in Hfield.
      destruct (_entity_picture (sensor (_async_render env w1).2)),
        (_entity_picture (sensor w1)); by simplify_eq.
    + specialize (Hfield "_available"
                    ltac:(apply list_elem_of_further, list_elem_of_further,
                            list_elem_of_here)).
      unfold getattr in Hfield. simpl in Hfield. by simplify_eq.
    + apply attributes_rendered_twice.
Qed.

Lemma rendering_twice_is_rendering_once_witness :
  let w1 := (_async_render Samples.env_icon_fails
               (added Samples.door 0)).2 in
  (_async_render Samples.env_icon_fails w1).1
  = (_async_render Samples.env_icon_fails (added Samples.door 0)).1
  /\ sensor (_async_render Samples.env_icon_fails w1).2 = sensor w1.
Proof.
  exact (rendering_twice_is_rendering_once Samples.env_icon_fails
           (added Samples.door 0)).
Defined.

(** ** What rendering never does *)

(** X7: [_async_render] only renders.  It never writes the committed value,
    never changes the name, the templates, the delays or the entities of
    the sensor, never touches the timers, the clock or the subscriptions of
    the host, hands no state to the host, and removes nothing from the
    trace. *)
Theorem rendering_commits_nothing env w :
  let w' := (_async_render env w).2 in
  _state (sensor w') = _state (sensor w)
  /\ settings (sensor w') = settings (sensor w)
  /\ timers w' = timers w
  /\ now w' = now w
  /\ state_listeners w' = state_listeners w
  /\ startup_listeners w' = startup_listeners w
  /\ trace w' = app (trace w) (pass_events (_async_render env) w)
  /\ publishes_nothing (pass_events (_async_render env) w).
Proof.
  intros w'. destruct (rendering__async_render env w).
  repeat split; try done.
  - apply trace_pass_events, rendering__async_render.
  - apply rendering_publishes_nothing, rendering__async_render.
Qed.

(** ** A value template that fails for another reason *)

Lemma continuing_pass_trace env w :
  aborts_early env (sensor w) = false ->
  exists evs,
    pass_events (_async_render env) w
    = app (steps_1_2_events env (sensor w)) evs.
Proof.
  intros Hgo.
  destruct (ro_trace _ _ (rendering_render_properties env
              (property_templates (sensor w)) (value_candidate env (sensor w))
              (before_properties env w))) as (evs & Hevs & _).
  exists evs. apply pass_events_from_trace.
  rewrite _async_render_run by done.
  by rewrite Hevs, before_properties_events, <- app_assoc.
Qed.

(** X8: when the value template fails with an error that is not an
    undefined reference, the pass logs it as an error, has no candidate,
    and goes on as a pass whose value rendered: the attribute templates
    are rendered and replace the attributes, and icon, entity picture and
    availability are rendered and assigned up to their first failure. *)
Theorem other_value_failure_goes_on env w ex :
  env (_template (sensor w)) = inr ex ->
  is_undefined_error ex = false ->
  let w' := (_async_render env w).2 in
  (_async_render env w).1 = None
  /\ (exists evs,
        pass_events (_async_render env) w
        = app [Rendered (_template (sensor w));
               LogError "Could not render template %s: %s"
                 [ArgStr (_name (sensor w)); ArgExc ex]]
            (app (match _attribute_templates (sensor w) with
                  | Some items => attribute_events env items
                  | None => []
                  end) evs))
  /\ (forall items,
        _attribute_templates (sensor w) = Some items ->
        _attributes (sensor w') = rendered_attributes env items ∅)
  /\ (forall name,
        name ∈ ["_icon"; "_entity_picture"; "_available"] ->
        getattr name (sensor w')
        = match assigned_text env (property_templates (sensor w)) name with
          | Some value => Some (assigned_value name value)
          | None => getattr name (sensor w)
          end).
Proof.
  intros Hex Hhard w'.
  assert (Hgo : aborts_early env (sensor w) = false).
  { unfold aborts_early. by rewrite Hex. }
  split; [|split; [|split]].
  - rewrite _async_render_returns. unfold value_candidate. by rewrite Hex.
  - destruct (continuing_pass_trace env w Hgo) as [evs Hevs].
    exists evs. rewrite Hevs. unfold steps_1_2_events, value_events.
    rewrite Hex. by rewrite <- app_assoc.
  - intros items Hitems. by apply _async_render_attributes.
  - intros name Hname. unfold w'. rewrite _async_render_field by done.
    by rewrite Hgo.
Qed.

Lemma other_value_failure_goes_on_witness :
  let env := Samples.env_value_broken in
  let w := Samples.seen_open in
  let w' := (_async_render env w).2 in
  (_async_render env w).1 = None
  /\ (forall items,
        _attribute_templates (sensor w) = Some items ->
        _attributes (sensor w') = rendered_attributes env items ∅).
Proof.
  intros env w w'.
  destruct (other_value_failure_goes_on env w Samples.syntax_error)
    as (Hnone & _ & Hattrs & _); [reflexivity|reflexivity|].
  split; [exact Hnone|exact Hattrs].
Defined.

(** ** Before and after the start signal *)

Lemma subscriptions_settings s s' :
  settings s' = settings s ->
  subscriptions_for (_entities s') = subscriptions_for (_entities s).
Proof.
  intros Heq. by destruct (settings_delays _ _ Heq) as (_ & _ & ->).
Qed.

Lemma waiting_or_started_run evs w :
  waiting_for_start w \/ started w ->
  waiting_for_start (run evs w) \/ started (run evs w).
Proof.
  apply (run_preserves (fun w' => waiting_for_start w' \/ started w'));
    try done.
  - intros env w' Hw'. unfold waiting_for_start, started.
    rewrite (ro_startup_listeners _ _ (rendering__async_render env w')).
    rewrite (ro_state_listeners _ _ (rendering__async_render env w')).
    by rewrite (subscriptions_settings (sensor w'))
      by apply (ro_settings _ _ (rendering__async_render env w')).
  - intros n w' [[Hone Hnone]|[Hzero _]] Hn; [|congruence].
    right. split; [done|]. simpl. by rewrite Hnone.
Qed.

Lemma deliver_not_start_listeners ev w :
  not_start ev ->
  state_listeners (deliver ev w).2 = state_listeners w
  /\ startup_listeners (deliver ev w).2 = startup_listeners w.
Proof.
  intros Hev. destruct ev as [env|entity env|env|t env]; simpl.
  - by destruct Hev.
  - unfold deliver_state_change. apply call_listeners_listeners.
  - apply async_check_state_listeners.
  - unfold deliver_clock. destruct (t <? now w); [done|]. simpl.
    apply (fire_timers_listeners env (List.filter (is_due t) (timers w))
             (with_timers (List.filter (fun tm => negb (is_due t tm))) w)).
Qed.

Lemma waiting_run evs :
  forall w,
    Forall not_start evs -> waiting_for_start w ->
    waiting_for_start (run evs w).
Proof.
  induction evs as [|ev rest IH]; intros w Hevs Hw; [done|].
  apply Forall_cons in Hevs as [Hev Hrest]. simpl. apply IH; [done|].
  destruct (deliver_not_start_listeners ev w Hev) as [Hsubs Hstart].
  unfold waiting_for_start. rewrite Hsubs, Hstart. exact Hw.
Qed.

(** The start signal is consumed by its delivery, whatever the world. *)
Lemma start_is_consumed env w :
  startup_listeners (deliver (HomeassistantStart env) w).2 = O.
Proof.
  simpl. unfold deliver_start.
  destruct (startup_listeners w) as [|n] eqn:Hn; [done|].
  unfold template_bsensor_startup, bind, get_self. simpl.
  by destruct (_entities (sensor w)); simpl;
    rewrite (proj2 (async_check_state_listeners env _)).
Qed.

(** A sensor that still waits has seen no start signal. *)
Lemma waiting_means_no_start evs :
  forall w,
    startup_listeners (run evs w) <> O -> Forall not_start evs.
Proof.
  induction evs as [|ev rest IH]; intros w Hwait; [constructor|].
  simpl in Hwait. constructor; [|by apply (IH (deliver ev w).2)].
  destruct ev as [env| | |]; simpl; try done.
  destruct Hwait.
  apply (run_listeners rest (deliver (HomeassistantStart env) w).2).
  apply start_is_consumed.
Qed.

(** X9: a sensor subscribes at most once.  After any events since it was
    added, either it still waits for the start signal and is subscribed to
    nothing, so that the change of any key renders nothing and changes
    nothing; or the signal was consumed and its only subscription, if any,
    is the one for its entities.  It waits exactly as long as no start
    signal came: it waits if and only if none of the events was the start
    signal. *)
Theorem subscribes_at_most_once self t0 evs :
  let w := run evs (added self t0) in
  ((waiting_for_start w
    /\ forall key env, deliver (StateChanged key env) w = (tt, w))
   \/ (startup_listeners w = O
       /\ state_listeners w = subscriptions_for (_entities self)))
  /\ (Forall not_start evs -> waiting_for_start w)
  /\ (waiting_for_start w -> Forall not_start evs).
Proof.
  intros w. split; [|split].
  - assert (Hw : waiting_for_start w \/ started w).
    { apply waiting_or_started_run. by left. }
    destruct Hw as [Hwait|[Hzero Hsubs]].
    + left. split; [done|]. intros key env. simpl.
      unfold deliver_state_change. by rewrite (proj2 Hwait).
    + right. split; [done|]. rewrite Hsubs.
      apply (subscriptions_settings self), (run_settings evs (added self t0)).
  - intros Hevs. by apply waiting_run.
  - intros [Hone _]. apply (waiting_means_no_start evs (added self t0)).
    fold w. by rewrite Hone.
Qed.

Lemma subscribes_at_most_once_witness :
  let w := run [StateChanged "binary_sensor.door" Samples.env_open;
                ClockReaches 5 Samples.env_open] (added Samples.door 0) in
  waiting_for_start w.
Proof.
  apply (proj1 (proj2 (subscribes_at_most_once Samples.door 0
                         [StateChanged "binary_sensor.door" Samples.env_open;
                          ClockReaches 5 Samples.env_open]))).
  repeat constructor.
Defined.

(** ** What [async_setup_platform] hands over *)

Section SetupShape.

Variables CONF_VALUE_TEMPLATE CONF_ICON_TEMPLATE : string.
Variables CONF_ENTITY_PICTURE_TEMPLATE CONF_AVAILABILITY_TEMPLATE : string.
Variable extract_entities : Template -> EntityIds.
Variable generate_entity_id : string -> string.

Local Abbreviation chain :=
  (chained_templates CONF_VALUE_TEMPLATE CONF_ICON_TEMPLATE
     CONF_ENTITY_PICTURE_TEMPLATE CONF_AVAILABILITY_TEMPLATE).
Local Abbreviation sensor_of :=
  (setup_sensor CONF_VALUE_TEMPLATE CONF_ICON_TEMPLATE
     CONF_ENTITY_PICTURE_TEMPLATE CONF_AVAILABILITY_TEMPLATE extract_entities
     generate_entity_id).
Local Abbreviation effects_of :=
  (setup_effects CONF_VALUE_TEMPLATE CONF_ICON_TEMPLATE
     CONF_ENTITY_PICTURE_TEMPLATE CONF_AVAILABILITY_TEMPLATE extract_entities).
Local Abbreviation setup :=
  (async_setup_platform CONF_VALUE_TEMPLATE CONF_ICON_TEMPLATE
     CONF_ENTITY_PICTURE_TEMPLATE CONF_AVAILABILITY_TEMPLATE extract_entities
     generate_entity_id).

Lemma setup_effects_steps device cfg :
  Forall is_setup_step (effects_of device cfg).
Proof.
  unfold setup_effects. apply Forall_app. split.
  - destruct (cfg_entity_id cfg) as [manual|] eqn:Hmanual.
    + unfold resolve_loop. rewrite Hmanual, resolve_fold_manual. constructor.
    + destruct (resolve_loop_auto CONF_VALUE_TEMPLATE CONF_ICON_TEMPLATE
                  CONF_ENTITY_PICTURE_TEMPLATE CONF_AVAILABILITY_TEMPLATE
                  extract_entities cfg Hmanual) as (-> & _ & _).
      apply Forall_fmap. by apply Forall_true.
  - unfold setup_warning.
    destruct (invalid_templates _); by repeat constructor.
Qed.

Lemma setup_effects_all_steps sensors_config :
  Forall is_setup_step
    (List.concat (map (fun dc => effects_of dc.1 dc.2) sensors_config)).
Proof.
  induction sensors_config as [|[device cfg] rest IH]; simpl; [constructor|].
  apply Forall_app. split; [apply setup_effects_steps|exact IH].
Qed.

(** X10: [async_setup_platform] hands over one sensor for each configured
    device, in the order of the configuration, each as [__init__] leaves it
    and named by its friendly name or, without one, by the key of the
    device.  It returns true exactly when there is at least one device, and
    logs the error ["No sensors added"] exactly when there is none. *)
Theorem setup_hands_over_one_sensor_per_device sensors_config :
  let result := setup sensors_config in
  result.1.1 = map (fun dc => sensor_of dc.1 dc.2) sensors_config
  /\ (result.2 = true <-> sensors_config <> [])
  /\ (LogError "No sensors added" [] ∈ result.1.2 <-> sensors_config = [])
  /\ (forall self, self ∈ result.1.1 -> freshly_built self)
  /\ (forall device cfg,
        _name (sensor_of device cfg) = default device (cfg_friendly_name cfg)).
Proof.
  intros result.
  assert (Hsensors : result.1.1
                     = map (fun dc => sensor_of dc.1 dc.2) sensors_config).
  { unfold result, async_setup_platform. by destruct sensors_config. }
  split; [exact Hsensors|]. split; [|split; [|split]].
  - unfold result, async_setup_platform. by destruct sensors_config.
  - split.
    + intros Hlogged. destruct sensors_config as [|dc rest]; [done|].
      unfold result, async_setup_platform in Hlogged. simpl in Hlogged.
      pose proof (setup_effects_all_steps (dc :: rest)) as Hsteps.
      rewrite Forall_forall in Hsteps.
      by destruct (Hsteps _ Hlogged).
    + intros ->. unfold result, async_setup_platform. simpl.
      apply list_elem_of_here.
  - intros self Hin. rewrite Hsensors in Hin.
    apply list_elem_of_fmap in Hin as ([device cfg] & -> & _).
    by repeat split.
  - done.
Qed.

(** X11: what a configured sensor ends up subscribed to.  With entities
    given by hand, once the start signal came the sensor holds one
    subscription, for exactly those entities, whatever its templates refer
    to.  Without them, if one of its templates is unbounded, the sensor
    never holds a subscription: after any events the change of any key
    renders nothing and changes nothing. *)
Theorem setup_decides_subscription device cfg t0 :
  (forall manual env evs,
      cfg_entity_id cfg = Some manual ->
      state_listeners
        (run (HomeassistantStart env :: evs) (added (sensor_of device cfg) t0))
      = [manual])
  /\ (forall evs key env,
        cfg_entity_id cfg = None ->
        offending extract_entities (chain cfg) <> [] ->
        let w := run evs (added (sensor_of device cfg) t0) in
        state_listeners w = []
        /\ deliver (StateChanged key env) w = (tt, w)).
Proof.
  split.
  - intros manual env evs Hmanual.
    assert (Hids : _entities (sensor_of device cfg) = Ids manual).
    { simpl. unfold resolved_entity_ids. by rewrite Hmanual. }
    cbn [run]. rewrite deliver_start_added.
    match goal with
    | |- state_listeners (run evs ?w1) = _ =>
        destruct (async_check_state_listeners env
                    (with_state_listeners
                       (fun _ => subscriptions_for (_entities (sensor_of device cfg)))
                       (with_startup_listeners O (added (sensor_of device cfg) t0))))
          as [Hsubs Hzero];
        destruct (run_listeners evs w1 Hzero) as [-> _]
    end.
    rewrite Hsubs. simpl. unfold resolved_entity_ids. by rewrite Hmanual.
  - intros evs key env Hauto Hoff w.
    assert (Hall : _entities (sensor_of device cfg) = MATCH_ALL).
    { destruct (resolve_loop_auto CONF_VALUE_TEMPLATE CONF_ICON_TEMPLATE
                  CONF_ENTITY_PICTURE_TEMPLATE CONF_AVAILABILITY_TEMPLATE
                  extract_entities cfg Hauto) as (_ & _ & Hids).
      simpl. unfold resolved_entity_ids. rewrite Hauto, Hids.
      by destruct (offending extract_entities (chain cfg)). }
    assert (Hnone : state_listeners w = []).
    { destruct (waiting_or_started_run evs (added (sensor_of device cfg) t0))
        as [[_ Hnone]|[_ Hsubs]]; [by left|done|].
      fold w in Hsubs. rewrite Hsubs.
      rewrite (subscriptions_settings (sensor_of device cfg))
        by apply (run_settings evs (added (sensor_of device cfg) t0)).
      by rewrite Hall. }
    split; [exact Hnone|]. simpl. unfold deliver_state_change.
    by rewrite Hnone.
Qed.

End SetupShape.

Lemma setup_hands_over_one_sensor_per_device_witness :
  let result :=
    MoreSetupSamples.setup [("sun", SetupSamples.sun_config);
                            ("busy", SetupSamples.busy_config)] in
  result.1.1 = [MoreSetupSamples.sensor_of "sun" SetupSamples.sun_config;
                MoreSetupSamples.sensor_of "busy" SetupSamples.busy_config]
  /\ result.2 = true.
Proof.
  intros result.
  destruct (setup_hands_over_one_sensor_per_device "value_template"
              "icon_template" "entity_picture_template"
              "availability_template" SetupSamples.extract_entities
              SetupSamples.generate_entity_id
              [("sun", SetupSamples.sun_config);
               ("busy", SetupSamples.busy_config)])
    as (Hsensors & Htrue & _).
  split; [exact Hsensors|]. apply Htrue. discriminate.
Defined.

Lemma setup_decides_subscription_witness :
  let w := run [HomeassistantStart Samples.env_open;
                ClockReaches 4 Samples.env_open]
             (added (MoreSetupSamples.sensor_of "busy"
                       SetupSamples.busy_config) 0) in
  state_listeners w = []
  /\ deliver (StateChanged "sun.sun" Samples.env_closed) w = (tt, w).
Proof.
  apply (proj2 (setup_decides_subscription "value_template"
                  "icon_template" "entity_picture_template"
                  "availability_template" SetupSamples.extract_entities
                  SetupSamples.generate_entity_id
                  "busy" SetupSamples.busy_config 0)).
  - reflexivity.
  - discriminate.
Defined.

(** ** The candidate and the rendered text *)

Lemma lower_ascii_t c : Py.lower_ascii c = "t"%char -> c = "t"%char \/ c = "T"%char.
Proof.
  destruct c as [[] [] [] [] [] [] [] []]; vm_compute; intros H;
    try discriminate; auto.
Qed.

Lemma lower_ascii_r c : Py.lower_ascii c = "r"%char -> c = "r"%char \/ c = "R"%char.
Proof.
  destruct c as [[] [] [] [] [] [] [] []]; vm_compute; intros H;
    try discriminate; auto.
Qed.

Lemma lower_ascii_u c : Py.lower_ascii c = "u"%char -> c = "u"%char \/ c = "U"%char.
Proof.
  destruct c as [[] [] [] [] [] [] [] []]; vm_compute; intros H;
    try discriminate; auto.
Qed.

Lemma lower_ascii_e c : Py.lower_ascii c = "e"%char -> c = "e"%char \/ c = "E"%char.
Proof.
  destruct c as [[] [] [] [] [] [] [] []]; vm_compute; intros H;
    try discriminate; auto.
Qed.

(** A text reads as true exactly when it is one of the sixteen spellings of
    [true]: upper and lower case are not told apart, nothing is trimmed. *)
Lemma is_true_text_spellings value :
  is_true_text value = true <-> value ∈ true_spellings.
Proof.
  split.
  - unfold is_true_text. intros Heq. apply String.eqb_eq in Heq.
    destruct value as [|c1 [|c2 [|c3 [|c4 [|c5 rest]]]]]; try discriminate.
    simpl in Heq. injection Heq as H1 H2 H3 H4.
    apply lower_ascii_t in H1. apply lower_ascii_r in H2.
    apply lower_ascii_u in H3. apply lower_ascii_e in H4.
    destruct H1 as [-> | ->], H2 as [-> | ->], H3 as [-> | ->],
      H4 as [-> | ->]; unfold true_spellings;
      repeat first [apply list_elem_of_here | apply list_elem_of_further].
  - intros Hin. unfold true_spellings in Hin.
    repeat (apply elem_of_cons in Hin as [->|Hin]; [reflexivity|]).
    by apply elem_of_nil in Hin.
Qed.

(** X12: what the candidate of a pass says about the value template.  The
    candidate is true exactly when the template renders one of the sixteen
    spellings of [true], without anything around it; it is unknown exactly
    when the template fails; any other rendered text gives false. *)
Theorem candidate_reads_rendered_text env w :
  ((_async_render env w).1 = Some true <->
     exists value, env (_template (sensor w)) = inl value
                   /\ value ∈ true_spellings)
  /\ ((_async_render env w).1 = None <->
        exists ex, env (_template (sensor w)) = inr ex)
  /\ ((_async_render env w).1 = Some false <->
        exists value, env (_template (sensor w)) = inl value
                      /\ value ∉ true_spellings).
Proof.
  rewrite _async_render_returns. unfold value_candidate.
  destruct (env (_template (sensor w))) as [value|ex].
  - pose proof (is_true_text_spellings value) as Hspell.
    split; [|split].
    + split.
      * intros Heq. exists value. split; [done|]. apply Hspell. congruence.
      * intros (v & Hv & Hin). simplify_eq. f_equal. by apply Hspell.
    + split; [done|]. by intros [ex Hex].
    + split.
      * intros Heq. exists value. split; [done|]. intros Hin.
        apply Hspell in Hin. congruence.
      * intros (v & Hv & Hnot). simplify_eq. f_equal.
        destruct (is_true_text v) eqn:Htext; [|done].
        destruct Hnot. by apply Hspell.
  - split; [|split].
    + split; [done|]. by intros (v & Hv & _).
    + split; [by exists ex|done].
    + split; [done|]. by intros (v & Hv & _).
Qed.

(** ** One state write for each change *)

Lemma count_published_quiet evs :
  Forall quiet evs -> count_published evs = O.
Proof.
  unfold count_published.
  induction evs as [|e rest IH]; intros Hq; [done|].
  apply Forall_cons in Hq as [He Hrest]. simpl.
  destruct e; try (by apply IH). by destruct He.
Qed.

Lemma count_published_pass env w :
  count_published (pass_events (_async_render env) w) = O.
Proof.
  destruct (ro_trace _ _ (rendering__async_render env w)) as (evs & Hevs & Hq).
  rewrite (pass_events_from_trace _ _ _ Hevs). by apply count_published_quiet.
Qed.

(** X13: a pass of [async_check_state] hands state to the host at most once,
    and exactly when it changes the committed value: one state write, with
    the new value, if the committed value changed, none otherwise. *)
Theorem one_state_write_for_each_change env w :
  let w' := (async_check_state env w).2 in
  let written := count_published (pass_events (async_check_state env) w) in
  (_state (sensor w') = _state (sensor w) /\ written = O)
  \/ (_state (sensor w') <> _state (sensor w) /\ written = 1%nat
      /\ _state (sensor w') = (_async_render env w).1
      /\ last_published (trace w') = _state (sensor w')).
Proof.
  intros w' written.
  destruct (async_check_state_cases env w) as [Hignore|(st & Hcand & Hnew)].
  - left. destruct (silent_when_ignored env w Hignore) as (_ & Hstate & _).
    split; [exact Hstate|]. unfold written.
    rewrite pass_events_ignored by done. apply count_published_pass.
  - destruct (truthy (period_for (sensor w) st)) eqn:Hdelay.
    + left.
      destruct (silent_when_delayed env w st Hcand Hnew Hdelay)
        as (_ & Hstate & _).
      split; [exact Hstate|]. unfold written.
      rewrite (pass_events_delayed env w st) by done.
      apply count_published_pass.
    + right.
      destruct (committed_at_once env w st Hcand Hnew Hdelay) as [Hstate _].
      fold w' in Hstate.
      split; [rewrite Hstate; congruence|]. split; [|split].
      * unfold written.
        rewrite (pass_events_committed env w st) by done.
        unfold count_published. rewrite List.filter_app, length_app.
        fold (count_published (pass_events (_async_render env) w)).
        by rewrite count_published_pass.
      * by rewrite Hstate, Hcand.
      * unfold w'. rewrite (async_check_state_commits env w st) by done.
        simpl. by rewrite last_published_snoc.
Qed.

(** ** A sensor without delays *)

(** X14: when neither delay is set, or both are zero, every pass with a known
    candidate leaves that candidate committed: the committed value follows
    the value template at once. *)
Theorem without_delays_state_follows_value env w st :
  truthy (_delay_on (sensor w)) = false ->
  truthy (_delay_off (sensor w)) = false ->
  (_async_render env w).1 = Some st ->
  _state (sensor (async_check_state env w).2) = Some st
  /\ timers (async_check_state env w).2 = timers w.
Proof.
  intros Hon Hoff Hcand.
  assert (Hdelay : truthy (period_for (sensor w) st) = false).
  { unfold period_for. by destruct st. }
  destruct (decide (_state (sensor w) = Some st)) as [Hsame|Hnew].
  - destruct (silent_when_ignored env w) as (_ & Hstate & Htimers).
    { right. by rewrite Hcand, Hsame. }
    split; [by rewrite Hstate|exact Htimers].
  - by apply committed_at_once.
Qed.

Lemma without_delays_state_follows_value_witness :
  let w := added MoreSamples.plain 0 in
  _state (sensor (async_check_state Samples.env_open w).2) = Some true
  /\ timers (async_check_state Samples.env_open w).2 = timers w.
Proof.
  apply (without_delays_state_follows_value Samples.env_open
           (added MoreSamples.plain 0) true); reflexivity.
Defined.

(** ** The warnings of a whole configuration *)

Section SetupWarnings.

Variables CONF_VALUE_TEMPLATE CONF_ICON_TEMPLATE : string.
Variables CONF_ENTITY_PICTURE_TEMPLATE CONF_AVAILABILITY_TEMPLATE : string.
Variable extract_entities : Template -> EntityIds.
Variable generate_entity_id : string -> string.

Local Abbreviation chain :=
  (chained_templates CONF_VALUE_TEMPLATE CONF_ICON_TEMPLATE
     CONF_ENTITY_PICTURE_TEMPLATE CONF_AVAILABILITY_TEMPLATE).
Local Abbreviation sensor_of :=
  (setup_sensor CONF_VALUE_TEMPLATE CONF_ICON_TEMPLATE
     CONF_ENTITY_PICTURE_TEMPLATE CONF_AVAILABILITY_TEMPLATE extract_entities
     generate_entity_id).
Local Abbreviation effects_of :=
  (setup_effects CONF_VALUE_TEMPLATE CONF_ICON_TEMPLATE
     CONF_ENTITY_PICTURE_TEMPLATE CONF_AVAILABILITY_TEMPLATE extract_entities).
Local Abbreviation setup :=
  (async_setup_platform CONF_VALUE_TEMPLATE CONF_ICON_TEMPLATE
     CONF_ENTITY_PICTURE_TEMPLATE CONF_AVAILABILITY_TEMPLATE extract_entities
     generate_entity_id).
Local Abbreviation warning_of device cfg :=
  (LogWarning setup_warning_text
     [ArgStr device;
      ArgStr (Py.join ", " (offending_names extract_entities (chain cfg)))]).

Lemma filter_warning_extracted (l : list (string * Template)) :
  List.filter is_warning (map (fun entry => Extracted entry.2) l) = [].
Proof. induction l as [|e rest IH]; simpl; auto. Qed.

Lemma setup_effects_warnings device cfg :
  List.filter is_warning (effects_of device cfg)
  = if warns (cfg_entity_id cfg) (offending extract_entities (chain cfg))
    then [warning_of device cfg] else [].
Proof.
  unfold setup_effects, setup_warning. rewrite List.filter_app.
  destruct (cfg_entity_id cfg) as [manual|] eqn:Hmanual.
  - unfold resolve_loop. rewrite Hmanual, resolve_fold_manual. reflexivity.
  - destruct (resolve_loop_auto CONF_VALUE_TEMPLATE CONF_ICON_TEMPLATE
                CONF_ENTITY_PICTURE_TEMPLATE CONF_AVAILABILITY_TEMPLATE
                extract_entities cfg Hmanual) as (-> & -> & _).
    rewrite filter_warning_extracted. unfold offending_names.
    by destruct (offending extract_entities (chain cfg)).
Qed.

(** X15: over a whole configuration, the warnings [async_setup_platform]
    logs are exactly one for each device that has no entities given by hand
    and at least one unbounded template, in the order of the devices, each
    naming its device and its unbounded templates. *)
Theorem setup_warns_once_per_unbounded_device sensors_config :
  List.filter is_warning (setup sensors_config).1.2
  = map (fun dc => warning_of dc.1 dc.2)
      (List.filter
         (fun dc => warns (cfg_entity_id dc.2)
                      (offending extract_entities (chain dc.2)))
         sensors_config).
Proof.
  assert (Hconcat :
            List.filter is_warning
              (List.concat (map (fun dc => effects_of dc.1 dc.2) sensors_config))
            = map (fun dc => warning_of dc.1 dc.2)
                (List.filter
                   (fun dc => warns (cfg_entity_id dc.2)
                                (offending extract_entities (chain dc.2)))
                   sensors_config)).
  { induction sensors_config as [|[device cfg] rest IH]; [done|].
    cbn [map List.concat List.filter fst snd].
    rewrite List.filter_app, setup_effects_warnings, IH.
    by destruct (warns (cfg_entity_id cfg)
                   (offending extract_entities (chain cfg))). }
  unfold async_setup_platform.
  destruct sensors_config as [|dc rest]; [reflexivity|exact Hconcat].
Qed.

(** ** The order of the attribute templates *)

Lemma configured_app l1 l2 :
  configured (app l1 l2) = app (configured l1) (configured l2).
Proof. unfold configured. apply omap_app. Qed.

Lemma configured_attributes (items : list (string * Template)) :
  configured (map (fun kv => (kv.1, Some kv.2)) items) = items.
Proof.
  induction items as [|[k t] rest IH]; [done|].
  change (configured (map (fun kv => (kv.1, Some kv.2)) ((k, t) :: rest)))
    with ((k, t) :: configured (map (fun kv => (kv.1, Some kv.2)) rest)).
  by rewrite IH.
Qed.

Lemma chain_permutation cfg items items' :
  items ≡ₚ items' ->
  configured (chain (with_attribute_templates items cfg))
  ≡ₚ configured (chain (with_attribute_templates items' cfg)).
Proof.
  intros Hperm. unfold chained_templates. rewrite !configured_app.
  change (default [] (cfg_attribute_templates
                        (with_attribute_templates items cfg))) with items.
  change (default [] (cfg_attribute_templates
                        (with_attribute_templates items' cfg))) with items'.
  rewrite !configured_attributes.
  by apply Permutation_app_head.
Qed.

Lemma filter_bool_permutation {A} (f : A -> bool) (l l' : list A) :
  l ≡ₚ l' -> List.filter f l ≡ₚ List.filter f l'.
Proof.
  induction 1 as [|x l l' _ IH|x y l|l1 l2 l3 _ IH1 _ IH2]; simpl.
  - done.
  - destruct (f x); [by constructor|done].
  - destruct (f x), (f y); try done. apply perm_swap.
  - by etrans.
Qed.

(** X16: the order in which the attribute templates are configured does not
    matter for the entities a sensor tracks: listed in another order, they
    give [MATCH_ALL] in the same cases and otherwise the same entities. *)
Theorem attribute_order_is_irrelevant device cfg items items' :
  items ≡ₚ items' ->
  same_entities
    (_entities (sensor_of device (with_attribute_templates items cfg)))
    (_entities (sensor_of device (with_attribute_templates items' cfg))).
Proof.
  intros Hperm. simpl. unfold resolved_entity_ids. simpl.
  destruct (cfg_entity_id cfg) as [manual|] eqn:Hmanual;
    [simpl; reflexivity|].
  pose proof (chain_permutation cfg items items' Hperm) as Hchain.
  destruct (resolve_loop_auto CONF_VALUE_TEMPLATE CONF_ICON_TEMPLATE
              CONF_ENTITY_PICTURE_TEMPLATE CONF_AVAILABILITY_TEMPLATE
              extract_entities (with_attribute_templates items cfg) Hmanual)
    as (_ & _ & ->).
  destruct (resolve_loop_auto CONF_VALUE_TEMPLATE CONF_ICON_TEMPLATE
              CONF_ENTITY_PICTURE_TEMPLATE CONF_AVAILABILITY_TEMPLATE
              extract_entities (with_attribute_templates items' cfg) Hmanual)
    as (_ & _ & ->).
  assert (Hoff : offending extract_entities
                   (chain (with_attribute_templates items cfg))
                 ≡ₚ offending extract_entities
                      (chain (with_attribute_templates items' cfg))).
  { unfold offending. by apply filter_bool_permutation. }
  assert (Hrefs : referenced extract_entities
                    (chain (with_attribute_templates items cfg))
                  = referenced extract_entities
                      (chain (with_attribute_templates items' cfg))).
  { apply set_eq. intros key. rewrite !referenced_elem.
    split; intros (name & t & ids & Hin & Ht & Hkey);
      exists name, t, ids; (split; [|done]);
      apply configured_elem; apply configured_elem in Hin.
    - by rewrite <- Hchain.
    - by rewrite Hchain. }
  destruct (offending extract_entities
              (chain (with_attribute_templates items cfg))) as [|o rest];
    destruct (offending extract_entities
                (chain (with_attribute_templates items' cfg))) as [|o' rest'].
  - simpl. by rewrite Hrefs.
  - by apply Permutation_nil_cons in Hoff.
  - symmetry in Hoff. by apply Permutation_nil_cons in Hoff.
  - done.
Qed.

End SetupWarnings.

Lemma attribute_order_is_irrelevant_witness :
  same_entities
    (_entities
       (MoreSetupSamples.sensor_of "sun"
          (with_attribute_templates
             [("elevation", SetupSamples.elevation);
              ("icon", SetupSamples.sun_icon)] SetupSamples.sun_config)))
    (_entities
       (MoreSetupSamples.sensor_of "sun"
          (with_attribute_templates
             [("icon", SetupSamples.sun_icon);
              ("elevation", SetupSamples.elevation)] SetupSamples.sun_config))).
Proof.
  apply (attribute_order_is_irrelevant "value_template" "icon_template"
           "entity_picture_template" "availability_template"
           SetupSamples.extract_entities SetupSamples.generate_entity_id
           "sun" SetupSamples.sun_config).
  apply perm_swap.
Defined.

Example busy_and_sun_warn_once :
  List.filter is_warning
    (MoreSetupSamples.setup [("sun", SetupSamples.sun_config);
                             ("busy", SetupSamples.busy_config);
                             ("manual", SetupSamples.manual_config)]).1.2
  = [LogWarning setup_warning_text [ArgStr "busy"; ArgStr "value, lights"]].
Proof. vm_compute. reflexivity. Qed.
